(** * The monthly calendar grid of [examples/models/file/calendars.py]

    A shallow embedding of [make_calendar]: the two column data sources it
    builds (the day cells of the month grid and the holiday highlight cells),
    together with the parts of Python's [calendar] and [datetime] modules and
    of the [str] and [list] built-ins that the function calls. *)

From Stdlib Require Import Ascii String DecimalString DecimalZ.
From Stdlib Require Import ZArith NArith List Bool Lia.
From Stdlib Require Finite.
From Stdlib Require Import Permutation.
Import ListNotations.
Local Open Scope Z_scope.

(** ** Exceptions *)

Inductive exn : Type :=
| ValueError
| IndexError
| IllegalMonthError.

Inductive result (A : Type) : Type :=
| Ok (a : A)
| Raise (e : exn).

Arguments Ok {A} a.
Arguments Raise {A} e.

Definition bind {A B : Type} (c : result A) (k : A -> result B) : result B :=
  match c with
  | Ok a => k a
  | Raise e => Raise e
  end.

Notation "x <- c ;; k" := (bind c (fun x => k))
  (at level 61, c at next level, right associativity).

Fixpoint mapM {A B : Type} (f : A -> result B) (l : list A) : result (list B) :=
  match l with
  | [] => Ok []
  | x :: l' =>
      y <- f x ;;
      ys <- mapM f l' ;;
      Ok (y :: ys)
  end.

(** ** Python built-ins

    A [str] is its sequence of Unicode code points; an [int] is a [Z], with
    [//] and [%] the floored [Z.div] and [Z.modulo]. *)

Module Py.

Definition pystr : Type := list N.

(** A string literal of the source. *)
Definition lit (s : string) : pystr := map N_of_ascii (list_ascii_of_string s).

(** [str(z)] on an [int]. *)
Definition str (z : Z) : pystr := lit (NilZero.string_of_int (Z.to_int z)).

Fixpoint str_eqb (a b : pystr) : bool :=
  match a, b with
  | [], [] => true
  | x :: a', y :: b' => N.eqb x y && str_eqb a' b'
  | _, _ => false
  end.

Definition len {A : Type} (l : list A) : Z := Z.of_nat (length l).

(** [l[i]]: a negative index counts from the end, and an index out of range
    raises [IndexError]. *)
Definition getitem {A : Type} (l : list A) (i : Z) : result A :=
  let j := if i <? 0 then i + len l else i in
  if j <? 0 then Raise IndexError
  else match nth_error l (Z.to_nat j) with
       | Some x => Ok x
       | None => Raise IndexError
       end.

(** [l.index(x)]: the first position of [x], [ValueError] when absent. *)
Fixpoint index_from (k : Z) (l : list pystr) (x : pystr) : result Z :=
  match l with
  | [] => Raise ValueError
  | y :: l' => if str_eqb y x then Ok k else index_from (k + 1) l' x
  end.

Definition index (l : list pystr) (x : pystr) : result Z := index_from 0 l x.

(** [range(a, b)]. *)
Definition range (a b : Z) : list Z :=
  map (fun k => a + Z.of_nat k) (seq 0 (Z.to_nat (b - a))).

(** [l * n] on lists. *)
Definition times {A : Type} (l : list A) (n : Z) : list A :=
  concat (repeat l (Z.to_nat n)).

(** [sum(ls, [])]. *)
Definition sum_lists {A : Type} (ls : list (list A)) : list A := concat ls.

Fixpoint startswith (p s : pystr) : bool :=
  match p, s with
  | [], _ => true
  | _ :: _, [] => false
  | x :: p', y :: s' => N.eqb x y && startswith p' s'
  end.

(** [p in s]. *)
Fixpoint contains (p s : pystr) : bool :=
  startswith p s ||
  match s with
  | [] => false
  | _ :: s' => contains p s'
  end.

(** The scan of [s.replace(old, "")] for a non-empty [old]: [skip] counts the
    characters of a match that are still to be dropped. *)
Fixpoint remove_scan (old : pystr) (skip : nat) (s : pystr) : pystr :=
  match s with
  | [] => []
  | c :: s' =>
      match skip with
      | S k => remove_scan old k s'
      | O =>
          if startswith old s then remove_scan old (length old - 1) s'
          else c :: remove_scan old O s'
      end
  end.

(** [s.replace(old, "")]: every occurrence of [old], found left to right
    without overlap, is deleted. *)
Definition remove (old s : pystr) : pystr :=
  match old with
  | [] => s
  | _ :: _ => remove_scan old O s
  end.

(** [ch.isspace()] for one character: the code points with the Unicode
    white-space property or bidirectional type WS, B or S. *)
Definition isspace (c : N) : bool :=
  (((9 <=? c) && (c <=? 13)) || ((28 <=? c) && (c <=? 32)) ||
   (c =? 133) || (c =? 160) || (c =? 5760) ||
   ((8192 <=? c) && (c <=? 8202)) || (c =? 8232) || (c =? 8233) ||
   (c =? 8239) || (c =? 8287) || (c =? 12288))%N.

Fixpoint lstrip (s : pystr) : pystr :=
  match s with
  | [] => []
  | c :: s' => if isspace c then lstrip s' else s
  end.

Definition rstrip (s : pystr) : pystr := rev (lstrip (rev s)).

(** [s.strip()]. *)
Definition strip (s : pystr) : pystr := rstrip (lstrip s).

End Py.

Import Py.

(** ** [datetime.date] *)

Module datetime.

Record date : Type := mkdate { year : Z; month : Z; day : Z }.

Definition DAYS_IN_MONTH : list Z :=
  [-1; 31; 28; 31; 30; 31; 30; 31; 31; 30; 31; 30; 31].

Definition DAYS_BEFORE_MONTH : list Z :=
  [-1; 0; 31; 59; 90; 120; 151; 181; 212; 243; 273; 304; 334].

Definition is_leap (y : Z) : bool :=
  (y mod 4 =? 0) && (negb (y mod 100 =? 0) || (y mod 400 =? 0)).

Definition days_before_year (year : Z) : Z :=
  let y := year - 1 in
  y * 365 + y / 4 - y / 100 + y / 400.

Definition days_in_month (year month : Z) : Z :=
  if (month =? 2) && is_leap year then 29
  else nth (Z.to_nat month) DAYS_IN_MONTH (-1).

Definition days_before_month (year month : Z) : Z :=
  nth (Z.to_nat month) DAYS_BEFORE_MONTH (-1)
  + (if (2 <? month) && is_leap year then 1 else 0).

Definition ymd2ord (year month day : Z) : Z :=
  days_before_year year + days_before_month year month + day.

(** The fields a [date] object can hold: the constructor refuses the rest. *)
Definition valid (d : date) : bool :=
  (1 <=? year d) && (year d <=? 9999) &&
  (1 <=? month d) && (month d <=? 12) &&
  (1 <=? day d) && (day d <=? days_in_month (year d) (month d)).

Definition toordinal (d : date) : Z := ymd2ord (year d) (month d) (day d).

(** [d.weekday()]: Monday is 0, Sunday is 6. *)
Definition weekday (d : date) : Z := (toordinal d + 6) mod 7.

(** [d.replace(day=v)]. *)
Definition replace_day (d : date) (v : Z) : date :=
  {| year := year d; month := month d; day := v |}.

End datetime.

(** ** [calendar] *)

Module calendar.

(** [day_abbr], in the C locale. *)
Definition day_abbr : list pystr :=
  map lit ["Mon"; "Tue"; "Wed"; "Thu"; "Fri"; "Sat"; "Sun"]%string.

Definition mdays : list Z := [0; 31; 28; 31; 30; 31; 30; 31; 31; 30; 31; 30; 31].

Definition isleap (year : Z) : bool :=
  (year mod 4 =? 0) && (negb (year mod 100 =? 0) || (year mod 400 =? 0)).

(** [calendar.weekday(year, month, day)]: a year that [datetime] does not
    hold is first moved into the 400-year cycle of 2000. *)
Definition weekday (year month day : Z) : Z :=
  let year := if (1 <=? year) && (year <=? 9999) then year
              else 2000 + year mod 400 in
  datetime.weekday (datetime.mkdate year month day).

(** [calendar.monthrange(year, month)]: the weekday of the first day and the
    number of days. *)
Definition monthrange (year month : Z) : result (Z * Z) :=
  if negb ((1 <=? month) && (month <=? 12)) then Raise IllegalMonthError
  else
    let day1 := weekday year month 1 in
    let ndays := nth (Z.to_nat month) mdays 0
                 + (if (month =? 2) && isleap year then 1 else 0) in
    Ok (day1, ndays).

(** [Calendar(firstweekday).itermonthdays(year, month)]: the days of the
    month, with zeros before and after to fill whole weeks. *)
Definition itermonthdays (firstweekday year month : Z) : result (list Z) :=
  r <- monthrange year month ;;
  let '(day1, ndays) := r in
  let days_before := (day1 - firstweekday) mod 7 in
  let days_after := (firstweekday - day1 - ndays) mod 7 in
  Ok (repeat 0 (Z.to_nat days_before)
      ++ range 1 (ndays + 1)
      ++ repeat 0 (Z.to_nat days_after)).

(** [month_name], in the C locale: position 0 holds the empty string. *)
Definition month_name : list pystr :=
  [] :: map lit ["January"; "February"; "March"; "April"; "May"; "June";
                 "July"; "August"; "September"; "October"; "November";
                 "December"]%string.

End calendar.

(** ** [make_calendar] *)

Import datetime.

(** The [data] of the column data source of the day cells. *)
Record source_data : Type := mksource {
  days : list pystr;
  weeks : list pystr;
  month_days : list (option pystr);
  day_backgrounds : list pystr
}.

(** The [data] of the column data source of the holiday cells. *)
Record holidays_data : Type := mkholidays {
  holidays_days : list pystr;
  holidays_weeks : list pystr;
  month_holidays : list pystr
}.

Definition workday : pystr := lit "linen".
Definition weekend : pystr := lit "lightsteelblue".
Definition US_OPM : pystr := lit "(US-OPM)".

(** The nested [weekday(date)], closed over [firstweekday]. *)
Definition weekday (firstweekday : Z) (d : date) : Z :=
  (datetime.weekday d - firstweekday) mod 7.

(** The nested [pick_weekdays(days)], closed over [firstweekday]. *)
Definition pick_weekdays {A : Type} (firstweekday : Z) (l : list A)
  : result (list A) :=
  mapM (fun i => getitem l (i mod 7)) (range firstweekday (firstweekday + 7)).

(** The list [holidays]: the entries of [us_holidays] of the month that carry
    the marker, with the marker deleted and the rest stripped. *)
Definition holidays (year month : Z) (us_holidays : list (date * pystr))
  : list (date * pystr) :=
  map (fun e => (fst e, strip (remove US_OPM (snd e))))
      (filter (fun e => (datetime.year (fst e) =? year)
                        && (datetime.month (fst e) =? month)
                        && contains US_OPM (snd e))
              us_holidays).

(** [make_calendar(year, month, firstweekday)], as far as the two data
    sources; [us_holidays] is the sample data the script imports. *)
Definition make_calendar (us_holidays : list (date * pystr))
    (year month : Z) (firstweekday : pystr)
  : result (source_data * holidays_data) :=
  firstweekday <- index calendar.day_abbr firstweekday ;;
  its <- calendar.itermonthdays firstweekday year month ;;
  let month_days :=
    map (fun day => if day =? 0 then None else Some (str day)) its in
  let month_weeks := len month_days / 7 in
  day_names <- pick_weekdays firstweekday calendar.day_abbr ;;
  week_days <- pick_weekdays firstweekday (repeat workday 5 ++ repeat weekend 2) ;;
  let source :=
    {| days := times day_names month_weeks;
       weeks := sum_lists (map (fun week => times [str week] 7)
                               (range 0 month_weeks));
       month_days := month_days;
       day_backgrounds := sum_lists (times [week_days] month_weeks) |} in
  let hs := holidays year month us_holidays in
  hdays <- mapM (fun e => getitem day_names (weekday firstweekday (fst e))) hs ;;
  Ok (source,
      {| holidays_days := hdays;
         holidays_weeks :=
           map (fun e => str ((weekday firstweekday (replace_day (fst e) 1)
                               + datetime.day (fst e)) / 7)) hs;
         month_holidays := map snd hs |}).

(** What the returned plot holds besides its glyphs and styling: the factors
    of its two categorical ranges, its title and the two data sources. *)
Record plot_data : Type := mkplot {
  x_range : list pystr;
  y_range : list pystr;
  title_text : pystr;
  source : source_data;
  holidays_source : holidays_data
}.

(** [make_calendar(year, month, firstweekday)] up to the plot: the data
    sources as above, then the ranges [xdr] and [ydr] and the title. *)
Definition make_calendar_plot (us_holidays : list (date * pystr))
    (year month : Z) (firstweekday : pystr) : result plot_data :=
  firstweekday <- index calendar.day_abbr firstweekday ;;
  its <- calendar.itermonthdays firstweekday year month ;;
  let month_days :=
    map (fun day => if day =? 0 then None else Some (str day)) its in
  let month_weeks := len month_days / 7 in
  day_names <- pick_weekdays firstweekday calendar.day_abbr ;;
  week_days <- pick_weekdays firstweekday (repeat workday 5 ++ repeat weekend 2) ;;
  let source :=
    {| days := times day_names month_weeks;
       weeks := sum_lists (map (fun week => times [str week] 7)
                               (range 0 month_weeks));
       month_days := month_days;
       day_backgrounds := sum_lists (times [week_days] month_weeks) |} in
  let hs := holidays year month us_holidays in
  hdays <- mapM (fun e => getitem day_names (weekday firstweekday (fst e))) hs ;;
  let holidays_source :=
    {| holidays_days := hdays;
       holidays_weeks :=
         map (fun e => str ((weekday firstweekday (replace_day (fst e) 1)
                             + datetime.day (fst e)) / 7)) hs;
       month_holidays := map snd hs |} in
  let xdr := day_names in
  let ydr := rev (map (fun week => str week) (range 0 month_weeks)) in
  title <- getitem calendar.month_name month ;;
  Ok {| x_range := xdr;
        y_range := ydr;
        title_text := title;
        source := source;
        holidays_source := holidays_source |}.

(** The module-level [months]: the twelve plots of 2014, in four rows of
    three, each with the default first weekday. *)
Definition months (us_holidays : list (date * pystr))
  : result (list (list plot_data)) :=
  mapM (fun i =>
          mapM (fun j => make_calendar_plot us_holidays 2014 (3 * i + j + 1)
                                            (lit "Mon"))
               (range 0 3))
       (range 0 4).

(** An annotated date for the examples below: the holiday of Monday
    20 January 2014, with the marker in its summary. *)
Definition mlk_2014 : date * pystr :=
  (mkdate 2014 1 20, lit "Birthday of Martin Luther King, Jr. (US-OPM)").

(** ** Vocabulary of the specification *)

(** The ordering [l] read from position [k] on, wrapping around: the weekday
    ordering whose first column is the [k]-th name. *)
Definition rotate {A : Type} (k : Z) (l : list A) : list A :=
  skipn (Z.to_nat k) l ++ firstn (Z.to_nat k) l.

(** The ceiling of [a / b]. *)
Definition ceil_div (a b : Z) : Z := - ((- a) / b).

(** The number of blank cells a grid starts with. *)
Fixpoint leading_blanks (l : list (option pystr)) : Z :=
  match l with
  | None :: l' => 1 + leading_blanks l'
  | _ => 0
  end.

(** The day-of-month values of the cells that are not blank, in grid order. *)
Definition non_blank (l : list (option pystr)) : list pystr :=
  flat_map (fun o => match o with Some s => [s] | None => [] end) l.

(** An annotated date lies in the month of the configuration. *)
Definition in_month (year month : Z) (e : date * pystr) : bool :=
  (datetime.year (fst e) =? year) && (datetime.month (fst e) =? month).

(** The annotated dates the highlight build keeps. *)
Definition kept (year month : Z) (us_holidays : list (date * pystr))
  : list (date * pystr) :=
  filter (fun e => in_month year month e && contains US_OPM (snd e)) us_holidays.

(** [p] occurs in [s] as a substring. *)
Definition occurs (p s : pystr) : Prop := exists a b, s = a ++ p ++ b.

(** [r] is [s] with the occurrences of [p] deleted, found from the left and
    without overlap. *)
Inductive deleted (p : pystr) : pystr -> pystr -> Prop :=
| deleted_end : deleted p [] []
| deleted_match (s r : pystr) :
    deleted p s r -> deleted p (p ++ s) r
| deleted_keep (c : N) (s r : pystr) :
    ~ (exists t, c :: s = p ++ t) ->
    deleted p s r -> deleted p (c :: s) (c :: r).

(** [r] is [s] without its leading and trailing white space. *)
Definition stripped (s r : pystr) : Prop :=
  exists a b,
    s = a ++ r ++ b /\
    Forall (fun c => isspace c = true) a /\
    Forall (fun c => isspace c = true) b /\
    (forall c r', r = c :: r' -> isspace c = false) /\
    (forall c r', r = r' ++ [c] -> isspace c = false).

(** The leading and trailing zeros of [itermonthdays]. *)
Definition days_before (firstweekday year month : Z) : Z :=
  (calendar.weekday year month 1 - firstweekday) mod 7.

Definition days_after (firstweekday year month : Z) : Z :=
  (firstweekday - calendar.weekday year month 1 - days_in_month year month) mod 7.

(** A cell of [month_days]. *)
Definition cell (day : Z) : option pystr :=
  if day =? 0 then None else Some (str day).

(** The abbreviation of the weekday of a date. *)
Definition day_name (d : date) : pystr :=
  nth (Z.to_nat (datetime.weekday d)) calendar.day_abbr [].

(** The background colours of the columns Monday to Sunday. *)
Definition backgrounds : list pystr := repeat workday 5 ++ repeat weekend 2.

(** What [itermonthdays] yields for a month. *)
Definition month_cells (firstweekday year month : Z) : list Z :=
  repeat 0 (Z.to_nat (days_before firstweekday year month))
  ++ range 1 (days_in_month year month + 1)
  ++ repeat 0 (Z.to_nat (days_after firstweekday year month)).

(** The value of [month_weeks]. *)
Definition week_count (firstweekday year month : Z) : Z :=
  len (map cell (month_cells firstweekday year month)) / 7.

(** The data sources of a plot, or its error. *)
Definition sources_of (r : result plot_data)
  : result (source_data * holidays_data) :=
  match r with
  | Ok p => Ok (source p, holidays_source p)
  | Raise e => Raise e
  end.

(** * Properties *)

(** ** The built-ins *)

Section Builtins.

Lemma str_eqb_eq (a b : pystr) : str_eqb a b = true <-> a = b.
Proof.
  revert b; induction a as [|x a IH]; intros [|y b]; simpl;
    try (split; [discriminate | congruence]); try tauto.
  rewrite andb_true_iff, N.eqb_eq, IH.
  split; [intros [-> ->]; reflexivity | intros [= -> ->]; auto].
Qed.

Lemma str_eqb_refl (a : pystr) : str_eqb a a = true.
Proof. apply str_eqb_eq; reflexivity. Qed.

Lemma lit_inj (s t : string) : lit s = lit t -> s = t.
Proof.
  unfold lit; intros H.
  rewrite <- (string_of_list_ascii_of_string s),
          <- (string_of_list_ascii_of_string t).
  f_equal.
  revert H; generalize (list_ascii_of_string s) (list_ascii_of_string t).
  intros l; induction l as [|a l IH]; intros [|b m]; simpl;
    try discriminate; auto.
  intros [= Hab Hlm].
  f_equal; [| auto].
  rewrite <- (ascii_N_embedding a), <- (ascii_N_embedding b); congruence.
Qed.

Lemma to_int_nonnil (z : Z) :
  Z.to_int z <> Decimal.Pos Decimal.Nil /\ Z.to_int z <> Decimal.Neg Decimal.Nil.
Proof.
  destruct z as [|p|p]; simpl; split; try discriminate;
    intros [= H]; exact (DecimalPos.Unsigned.to_uint_nonnil p H).
Qed.

(** [str] is one-to-one on integers. *)
Lemma str_inj (a b : Z) : str a = str b -> a = b.
Proof.
  unfold str; intros H; apply lit_inj in H.
  apply DecimalZ.to_int_inj.
  destruct (to_int_nonnil a) as [Ha1 Ha2], (to_int_nonnil b) as [Hb1 Hb2].
  pose proof (NilZero.isi _ Ha1 Ha2) as Ia.
  pose proof (NilZero.isi _ Hb1 Hb2) as Ib.
  rewrite H in Ia; congruence.
Qed.

Lemma len_app {A : Type} (l m : list A) : len (l ++ m) = len l + len m.
Proof. unfold len; rewrite length_app; lia. Qed.

Lemma len_repeat {A : Type} (x : A) (n : Z) :
  0 <= n -> len (repeat x (Z.to_nat n)) = n.
Proof. unfold len; rewrite repeat_length; lia. Qed.

Lemma len_range (a b : Z) : a <= b -> len (range a b) = b - a.
Proof. unfold len, range; rewrite length_map, length_seq; lia. Qed.

Lemma len_nonneg {A : Type} (l : list A) : 0 <= len l.
Proof. unfold len; lia. Qed.

Lemma nth_error_range (a b : Z) (i : nat) :
  (i < Z.to_nat (b - a))%nat ->
  nth_error (range a b) i = Some (a + Z.of_nat i).
Proof.
  intros H; unfold range.
  rewrite nth_error_map, nth_error_seq.
  destruct (Nat.ltb_spec i (Z.to_nat (b - a))); [reflexivity | lia].
Qed.

Lemma getitem_nth {A : Type} (l : list A) (i : Z) (x : A) :
  0 <= i -> nth_error l (Z.to_nat i) = Some x -> getitem l i = Ok x.
Proof.
  intros Hi H; unfold getitem.
  destruct (Z.ltb_spec i 0); [lia |].
  destruct (Z.ltb_spec i 0); [lia |].
  rewrite H; reflexivity.
Qed.

Lemma mapM_ok {A B : Type} (f : A -> result B) (g : A -> B) (l : list A) :
  (forall x, In x l -> f x = Ok (g x)) -> mapM f l = Ok (map g l).
Proof.
  induction l as [|x l IH]; intros H; simpl; [reflexivity |].
  rewrite (H x) by (left; reflexivity); simpl.
  rewrite IH by (intros y Hy; apply H; right; exact Hy).
  reflexivity.
Qed.

Lemma index_from_not_in (l : list pystr) (x : pystr) (k : Z) :
  ~ In x l -> index_from k l x = Raise ValueError.
Proof.
  revert k; induction l as [|y l IH]; intros k H; simpl; [reflexivity |].
  destruct (str_eqb y x) eqn:E.
  - apply str_eqb_eq in E; subst; exfalso; apply H; left; reflexivity.
  - apply IH; intros Hin; apply H; right; exact Hin.
Qed.

Lemma index_from_ok (l : list pystr) (x : pystr) (k j : Z) :
  index_from k l x = Ok j ->
  k <= j < k + len l /\ nth_error l (Z.to_nat (j - k)) = Some x.
Proof.
  revert k; induction l as [|y l IH]; intros k; simpl; [discriminate |].
  destruct (str_eqb y x) eqn:E.
  - intros [= <-]; apply str_eqb_eq in E; subst.
    rewrite Z.sub_diag; unfold len; simpl length; split; [lia | reflexivity].
  - intros H; apply IH in H; destruct H as [Hr Hn].
    unfold len in *; simpl length; split; [lia |].
    replace (Z.to_nat (j - k)) with (S (Z.to_nat (j - (k + 1)))) by lia.
    exact Hn.
Qed.

Lemma index_from_in (l : list pystr) (x : pystr) (k : Z) :
  In x l -> exists j, index_from k l x = Ok j.
Proof.
  revert k; induction l as [|y l IH]; intros k; simpl; [tauto |].
  intros [-> | H].
  - rewrite str_eqb_refl; eauto.
  - destruct (str_eqb y x); [eauto | apply IH; exact H].
Qed.

End Builtins.

(** ** The calendar arithmetic *)

Section Calendar.

Lemma ceil_div_spec (a b : Z) :
  0 < b -> b * (ceil_div a b - 1) < a <= b * ceil_div a b.
Proof.
  intros Hb; unfold ceil_div.
  pose proof (Z.div_mod (- a) b) as E.
  pose proof (Z.mod_pos_bound (- a) b Hb) as B.
  nia.
Qed.

Lemma is_leap_period (y : Z) : is_leap (2000 + y mod 400) = is_leap y.
Proof.
  unfold is_leap.
  replace ((2000 + y mod 400) mod 4) with (y mod 4)
    by (Z.div_mod_to_equations; lia).
  replace ((2000 + y mod 400) mod 100) with (y mod 100)
    by (Z.div_mod_to_equations; lia).
  replace ((2000 + y mod 400) mod 400) with (y mod 400)
    by (Z.div_mod_to_equations; lia).
  reflexivity.
Qed.

Lemma days_before_year_period (y : Z) :
  days_before_year (2000 + y mod 400)
  = days_before_year y + 146097 * (5 - y / 400).
Proof.
  unfold days_before_year.
  Z.div_mod_to_equations; lia.
Qed.

(** The weekday of [calendar] is the weekday of [datetime], also for the
    years that [calendar] moves into the cycle of 2000. *)
Lemma calendar_weekday_eq (y m d : Z) :
  calendar.weekday y m d = datetime.weekday (mkdate y m d).
Proof.
  unfold calendar.weekday.
  destruct ((1 <=? y) && (y <=? 9999)); [reflexivity |].
  unfold datetime.weekday, toordinal, ymd2ord, days_before_month.
  cbn [datetime.year datetime.month datetime.day].
  rewrite is_leap_period, days_before_year_period.
  Z.div_mod_to_equations; lia.
Qed.

(** The weekday of a day of a month, from the weekday of the first. *)
Lemma weekday_from_first (y m d : Z) :
  datetime.weekday (mkdate y m d)
  = (datetime.weekday (mkdate y m 1) + d - 1) mod 7.
Proof.
  unfold datetime.weekday, toordinal, ymd2ord.
  cbn [datetime.year datetime.month datetime.day].
  Z.div_mod_to_equations; lia.
Qed.

Lemma weekday_range (d : date) : 0 <= datetime.weekday d < 7.
Proof. unfold datetime.weekday; apply Z.mod_pos_bound; lia. Qed.

Lemma closure_weekday_range (fw : Z) (d : date) : 0 <= weekday fw d < 7.
Proof. unfold weekday; apply Z.mod_pos_bound; lia. Qed.

Lemma days_in_month_range (y m : Z) :
  1 <= m <= 12 -> 28 <= days_in_month y m <= 31.
Proof.
  intros H; unfold days_in_month.
  assert (C : m = 1 \/ m = 2 \/ m = 3 \/ m = 4 \/ m = 5 \/ m = 6 \/ m = 7 \/
              m = 8 \/ m = 9 \/ m = 10 \/ m = 11 \/ m = 12) by lia.
  repeat (destruct C as [-> | C]); try subst m;
    destruct (is_leap y); simpl; lia.
Qed.

Lemma monthrange_ok (y m : Z) :
  1 <= m <= 12 ->
  calendar.monthrange y m = Ok (calendar.weekday y m 1, days_in_month y m).
Proof.
  intros H; unfold calendar.monthrange.
  destruct (Z.leb_spec 1 m); [| lia].
  destruct (Z.leb_spec m 12); [| lia].
  simpl negb; cbv iota.
  do 2 f_equal.
  unfold days_in_month, calendar.isleap, is_leap.
  assert (C : m = 1 \/ m = 2 \/ m = 3 \/ m = 4 \/ m = 5 \/ m = 6 \/ m = 7 \/
              m = 8 \/ m = 9 \/ m = 10 \/ m = 11 \/ m = 12) by lia.
  repeat (destruct C as [-> | C]); try subst m;
    match goal with |- context [?a && ?b] =>
      destruct b; reflexivity
    end.
Qed.

Lemma monthrange_illegal (y m : Z) :
  ~ (1 <= m <= 12) -> calendar.monthrange y m = Raise IllegalMonthError.
Proof.
  intros H; unfold calendar.monthrange.
  destruct (Z.leb_spec 1 m); destruct (Z.leb_spec m 12);
    try reflexivity; lia.
Qed.

Lemma itermonthdays_ok (fw y m : Z) :
  1 <= m <= 12 ->
  calendar.itermonthdays fw y m = Ok (month_cells fw y m).
Proof.
  intros H; unfold calendar.itermonthdays.
  rewrite (monthrange_ok y m H); reflexivity.
Qed.

Lemma days_before_range (fw y m : Z) : 0 <= days_before fw y m < 7.
Proof. unfold days_before; apply Z.mod_pos_bound; lia. Qed.

Lemma days_after_range (fw y m : Z) : 0 <= days_after fw y m < 7.
Proof. unfold days_after; apply Z.mod_pos_bound; lia. Qed.

(** The zeros before, the days and the zeros after fill whole weeks. *)
Lemma whole_weeks (fw y m : Z) :
  (days_before fw y m + days_in_month y m + days_after fw y m) mod 7 = 0.
Proof.
  unfold days_before, days_after.
  Z.div_mod_to_equations; lia.
Qed.

Lemma pick_weekdays_rotate {A : Type} (k : Z) (l : list A) :
  length l = 7%nat -> 0 <= k < 7 -> pick_weekdays k l = Ok (rotate k l).
Proof.
  intros Hl Hk.
  do 8 (destruct l as [|? l]; try discriminate Hl).
  assert (C : k = 0 \/ k = 1 \/ k = 2 \/ k = 3 \/ k = 4 \/ k = 5 \/ k = 6) by lia.
  repeat (destruct C as [-> | C]); try subst k; reflexivity.
Qed.

Lemma rotate_length {A : Type} (k : Z) (l : list A) :
  length (rotate k l) = length l.
Proof.
  unfold rotate; rewrite length_app, length_skipn, length_firstn; lia.
Qed.

(** Column [j] of the rotated ordering holds the name at [(k + j) mod 7]. *)
Lemma nth_error_rotate {A : Type} (k j : Z) (l : list A) :
  length l = 7%nat -> 0 <= k < 7 -> 0 <= j < 7 ->
  nth_error (rotate k l) (Z.to_nat j) = nth_error l (Z.to_nat ((k + j) mod 7)).
Proof.
  intros Hl Hk Hj.
  do 8 (destruct l as [|? l]; try discriminate Hl).
  assert (C : k = 0 \/ k = 1 \/ k = 2 \/ k = 3 \/ k = 4 \/ k = 5 \/ k = 6) by lia.
  assert (D : j = 0 \/ j = 1 \/ j = 2 \/ j = 3 \/ j = 4 \/ j = 5 \/ j = 6) by lia.
  repeat (destruct C as [-> | C]); try subst k;
    repeat (destruct D as [-> | D]); try subst j; reflexivity.
Qed.

End Calendar.

(** ** The columns of the two data sources *)

Section Columns.

Lemma nth_error_times {A : Type} (l : list A) (n : Z) (i : nat) :
  (i < Z.to_nat n * length l)%nat ->
  nth_error (times l n) i = nth_error l (i mod length l).
Proof.
  unfold times; generalize (Z.to_nat n) as k; intros k.
  revert i; induction k as [|k IH]; intros i H; [lia |].
  simpl repeat; simpl concat.
  destruct (Nat.ltb_spec i (length l)) as [Hlt | Hge].
  - rewrite nth_error_app1 by exact Hlt.
    rewrite Nat.mod_small by exact Hlt; reflexivity.
  - rewrite nth_error_app2 by exact Hge.
    rewrite IH by lia.
    replace (i mod length l)%nat with ((i - length l + 1 * length l) mod length l)%nat
      by (f_equal; lia).
    rewrite Nat.Div0.mod_add; reflexivity.
Qed.

Lemma length_times {A : Type} (l : list A) (n : Z) :
  length (times l n) = (Z.to_nat n * length l)%nat.
Proof.
  unfold times; induction (Z.to_nat n) as [|k IH]; simpl; [reflexivity |].
  rewrite length_app, IH; reflexivity.
Qed.

Lemma times_singleton {A : Type} (l : list A) (n : Z) :
  sum_lists (times [l] n) = times l n.
Proof.
  unfold sum_lists, times; induction (Z.to_nat n) as [|k IH]; simpl;
    [reflexivity |].
  rewrite IH; reflexivity.
Qed.

Lemma nth_error_rows {A B : Type} (g : A -> B) (ws : list A) (i : nat) :
  nth_error (sum_lists (map (fun w => times [g w] 7) ws)) i
  = option_map g (nth_error ws (i / 7)).
Proof.
  unfold sum_lists; revert i; induction ws as [|w ws IH]; intros i.
  - cbn [map concat]; rewrite !nth_error_nil; reflexivity.
  - do 7 (destruct i as [|i]; [reflexivity |]).
    replace (S (S (S (S (S (S (S i))))))) with (i + 1 * 7)%nat at 2 by lia.
    rewrite Nat.div_add by lia.
    replace (i / 7 + 1)%nat with (S (i / 7)) by lia.
    cbn [nth_error]; rewrite <- IH; reflexivity.
Qed.

Lemma length_rows {A B : Type} (g : A -> B) (ws : list A) :
  length (sum_lists (map (fun w => times [g w] 7) ws)) = (7 * length ws)%nat.
Proof.
  unfold sum_lists; induction ws as [|w ws IH]; [reflexivity |].
  cbn [map concat]; rewrite length_app, IH.
  change (length (times [g w] 7)) with 7%nat; simpl length; lia.
Qed.

Lemma cell_zero : cell 0 = None.
Proof. reflexivity. Qed.

Lemma cell_day (d : Z) : d <> 0 -> cell d = Some (str d).
Proof. intros H; unfold cell; destruct (Z.eqb_spec d 0); [contradiction | reflexivity]. Qed.

Lemma len_month_cells (fw y m : Z) :
  1 <= m <= 12 ->
  len (map cell (month_cells fw y m))
  = days_before fw y m + days_in_month y m + days_after fw y m.
Proof.
  intros H; unfold month_cells, len.
  pose proof (days_before_range fw y m).
  pose proof (days_after_range fw y m).
  pose proof (days_in_month_range y m H).
  rewrite length_map, !length_app, !repeat_length.
  unfold range; rewrite length_map, length_seq; lia.
Qed.

Lemma week_count_spec (fw y m : Z) :
  1 <= m <= 12 ->
  7 * week_count fw y m
  = days_before fw y m + days_in_month y m + days_after fw y m.
Proof.
  intros H; unfold week_count; rewrite (len_month_cells fw y m H).
  pose proof (whole_weeks fw y m).
  Z.div_mod_to_equations; lia.
Qed.

Lemma week_count_range (fw y m : Z) : 1 <= m <= 12 -> 4 <= week_count fw y m <= 6.
Proof.
  intros H.
  pose proof (week_count_spec fw y m H).
  pose proof (days_before_range fw y m).
  pose proof (days_after_range fw y m).
  pose proof (days_in_month_range y m H).
  lia.
Qed.

(** The cell at position [i] of the grid: blank before the first day and after
    the last, and the day [i - days_before + 1] in between. *)
Lemma nth_error_month_cells (fw y m : Z) (i : nat) :
  1 <= m <= 12 ->
  (i < Z.to_nat (7 * week_count fw y m))%nat ->
  nth_error (map cell (month_cells fw y m)) i
  = Some (if (days_before fw y m <=? Z.of_nat i)
             && (Z.of_nat i <? days_before fw y m + days_in_month y m)
          then Some (str (Z.of_nat i - days_before fw y m + 1))
          else None).
Proof.
  intros H Hi.
  pose proof (week_count_spec fw y m H) as W.
  pose proof (days_before_range fw y m) as B.
  pose proof (days_after_range fw y m) as A.
  pose proof (days_in_month_range y m H) as D.
  unfold month_cells; rewrite nth_error_map.
  destruct (Z.leb_spec (days_before fw y m) (Z.of_nat i)) as [H1 | H1].
  - rewrite nth_error_app2 by (rewrite repeat_length; lia).
    rewrite repeat_length.
    destruct (Z.ltb_spec (Z.of_nat i) (days_before fw y m + days_in_month y m))
      as [H2 | H2].
    + rewrite nth_error_app1
        by (unfold range; rewrite length_map, length_seq; lia).
      rewrite nth_error_range by lia.
      cbn [option_map andb]; rewrite cell_day by lia.
      do 3 f_equal; lia.
    + rewrite nth_error_app2
        by (unfold range; rewrite length_map, length_seq; lia).
      rewrite (nth_error_repeat 0)
        by (unfold range; rewrite length_map, length_seq; lia).
      reflexivity.
  - rewrite nth_error_app1 by (rewrite repeat_length; lia).
    rewrite (nth_error_repeat 0) by lia.
    reflexivity.
Qed.

End Columns.

(** ** [make_calendar] on a valid and on an invalid configuration *)

Section MakeCalendar.

Variable us_holidays : list (date * pystr).
Variables year month : Z.
Variable name : pystr.

Lemma index_day_abbr (fw : Z) :
  index calendar.day_abbr name = Ok fw ->
  0 <= fw < 7 /\ nth_error calendar.day_abbr (Z.to_nat fw) = Some name.
Proof.
  intros H; apply index_from_ok in H; destruct H as [Hr Hn].
  rewrite Z.sub_0_r in Hn; change (len calendar.day_abbr) with 7 in Hr.
  split; [lia | exact Hn].
Qed.

Lemma valid_firstweekday :
  In name calendar.day_abbr ->
  exists fw, index calendar.day_abbr name = Ok fw /\ 0 <= fw < 7.
Proof.
  intros H; destruct (index_from_in _ _ 0 H) as [fw Hfw].
  exists fw; split; [exact Hfw | apply (index_day_abbr fw Hfw)].
Qed.

Lemma getitem_day_names (fw : Z) (d : date) :
  0 <= fw < 7 ->
  getitem (rotate fw calendar.day_abbr) (weekday fw d)
  = Ok (nth (Z.to_nat (weekday fw d)) (rotate fw calendar.day_abbr) []).
Proof.
  intros Hfw; pose proof (closure_weekday_range fw d) as Hw.
  apply getitem_nth; [lia |].
  apply nth_error_nth'.
  rewrite rotate_length; change (length calendar.day_abbr) with 7%nat; lia.
Qed.

(** The two data sources of a valid configuration, column by column. *)
Lemma make_calendar_ok (fw : Z) :
  index calendar.day_abbr name = Ok fw ->
  1 <= month <= 12 ->
  make_calendar us_holidays year month name
  = Ok ({| days := times (rotate fw calendar.day_abbr) (week_count fw year month);
           weeks := sum_lists (map (fun week => times [str week] 7)
                                   (range 0 (week_count fw year month)));
           month_days := map cell (month_cells fw year month);
           day_backgrounds := times (rotate fw backgrounds)
                                    (week_count fw year month) |},
        {| holidays_days :=
             map (fun e => nth (Z.to_nat (weekday fw (fst e)))
                               (rotate fw calendar.day_abbr) [])
                 (kept year month us_holidays);
           holidays_weeks :=
             map (fun e => str ((weekday fw (replace_day (fst e) 1)
                                 + datetime.day (fst e)) / 7))
                 (kept year month us_holidays);
           month_holidays :=
             map (fun e => strip (remove US_OPM (snd e)))
                 (kept year month us_holidays) |}).
Proof.
  intros Hidx Hm.
  destruct (index_day_abbr fw Hidx) as [Hfw _].
  unfold make_calendar.
  rewrite Hidx; cbn [bind].
  rewrite (itermonthdays_ok fw year month Hm); cbn [bind].
  rewrite (pick_weekdays_rotate fw calendar.day_abbr eq_refl Hfw); cbn [bind].
  rewrite (pick_weekdays_rotate fw (repeat workday 5 ++ repeat weekend 2)
             eq_refl Hfw); cbn [bind].
  rewrite (mapM_ok _ (fun e => nth (Z.to_nat (weekday fw (fst e)))
                                   (rotate fw calendar.day_abbr) []))
    by (intros e _; apply getitem_day_names; exact Hfw).
  cbn [bind]; rewrite times_singleton.
  unfold holidays; rewrite !map_map.
  reflexivity.
Qed.

Lemma make_calendar_bad_weekday :
  ~ In name calendar.day_abbr ->
  make_calendar us_holidays year month name = Raise ValueError.
Proof.
  intros H; unfold make_calendar, index.
  rewrite (index_from_not_in _ _ 0 H); reflexivity.
Qed.

Lemma make_calendar_bad_month :
  In name calendar.day_abbr -> ~ (1 <= month <= 12) ->
  make_calendar us_holidays year month name = Raise IllegalMonthError.
Proof.
  intros Hn Hm; destruct (valid_firstweekday Hn) as (fw & Hidx & _).
  unfold make_calendar; rewrite Hidx; cbn [bind].
  unfold calendar.itermonthdays; rewrite (monthrange_illegal year month Hm).
  reflexivity.
Qed.

End MakeCalendar.

(** ** The month grid *)

Section MonthGrid.

Lemma leading_blanks_repeat (n : nat) (l : list Z) :
  leading_blanks (map cell (repeat 0 n ++ l))
  = Z.of_nat n + leading_blanks (map cell l).
Proof.
  induction n as [|n IH]; [reflexivity |].
  cbn [repeat app map]; rewrite cell_zero; cbn [leading_blanks].
  rewrite IH; lia.
Qed.

Lemma range_cons (a b : Z) : a < b -> range a b = a :: range (a + 1) b.
Proof.
  intros H; unfold range.
  replace (Z.to_nat (b - a)) with (S (Z.to_nat (b - (a + 1)))) by lia.
  cbn [seq map]; rewrite <- seq_shift, map_map.
  f_equal; [lia |].
  apply map_ext; intros k; lia.
Qed.

Lemma leading_blanks_month_cells (fw y m : Z) :
  1 <= m <= 12 ->
  leading_blanks (map cell (month_cells fw y m)) = days_before fw y m.
Proof.
  intros H; unfold month_cells.
  pose proof (days_before_range fw y m).
  pose proof (days_in_month_range y m H).
  rewrite leading_blanks_repeat, (range_cons 1) by lia.
  cbn [app map]; rewrite (cell_day 1) by lia; cbn [leading_blanks]; lia.
Qed.

Lemma non_blank_app (l l' : list (option pystr)) :
  non_blank (l ++ l') = non_blank l ++ non_blank l'.
Proof. unfold non_blank; apply flat_map_app. Qed.

Lemma non_blank_zeros (n : nat) : non_blank (map cell (repeat 0 n)) = [].
Proof. induction n as [|n IH]; [reflexivity | exact IH]. Qed.

Lemma non_blank_days (l : list Z) :
  Forall (fun d => d <> 0) l -> non_blank (map cell l) = map str l.
Proof.
  induction 1 as [|d l Hd _ IH]; [reflexivity |].
  cbn [map]; rewrite (cell_day d Hd).
  unfold non_blank in *; cbn [flat_map app]; rewrite IH; reflexivity.
Qed.

Lemma in_range (a b d : Z) : In d (range a b) <-> a <= d < b.
Proof.
  unfold range; rewrite in_map_iff; split.
  - intros (k & <- & Hk); apply in_seq in Hk; lia.
  - intros H; exists (Z.to_nat (d - a)); split; [lia |].
    apply in_seq; lia.
Qed.

Lemma NoDup_range (a b : Z) : NoDup (range a b).
Proof.
  unfold range; apply Finite.Injective_map_NoDup; [| apply seq_NoDup].
  intros j k Hjk; lia.
Qed.

Lemma non_blank_month_cells (fw y m : Z) :
  1 <= m <= 12 ->
  non_blank (map cell (month_cells fw y m))
  = map str (range 1 (days_in_month y m + 1)).
Proof.
  intros H; unfold month_cells.
  rewrite !map_app, !non_blank_app, !non_blank_zeros, app_nil_r.
  cbn [app]; apply non_blank_days.
  apply Forall_forall; intros d Hd; apply in_range in Hd; lia.
Qed.

(** C3: for a valid month and first weekday the grid holds exactly
    [7 * weekCount] cells, [weekCount] being the ceiling of (leading blanks
    plus days of the month) over 7; so its length is a multiple of 7. *)
Theorem C3_grid_length (us_holidays : list (date * pystr))
    (year month : Z) (firstweekday : pystr) :
  1 <= month <= 12 ->
  In firstweekday calendar.day_abbr ->
  exists src hol,
    make_calendar us_holidays year month firstweekday = Ok (src, hol) /\
    len (month_days src)
    = 7 * ceil_div (leading_blanks (month_days src)
                    + days_in_month year month) 7 /\
    len (month_days src) mod 7 = 0 /\
    len (days src) = len (month_days src) /\
    len (weeks src) = len (month_days src) /\
    len (day_backgrounds src) = len (month_days src).
Proof.
  intros Hm Hn.
  destruct (valid_firstweekday firstweekday Hn) as (fw & Hidx & Hfw).
  do 2 eexists; split;
    [exact (make_calendar_ok us_holidays year month firstweekday fw Hidx Hm) |].
  cbn [month_days days weeks day_backgrounds].
  pose proof (week_count_spec fw year month Hm) as W.
  pose proof (week_count_range fw year month Hm) as R.
  pose proof (days_after_range fw year month) as A.
  pose proof (whole_weeks fw year month) as M.
  rewrite (leading_blanks_month_cells fw year month Hm).
  rewrite (len_month_cells fw year month Hm).
  repeat split.
  - unfold ceil_div; Z.div_mod_to_equations; lia.
  - exact M.
  - unfold len; rewrite length_times, rotate_length.
    change (length calendar.day_abbr) with 7%nat; lia.
  - unfold len; rewrite length_rows.
    unfold range; rewrite length_map, length_seq; lia.
  - unfold len; rewrite length_times, rotate_length.
    change (length backgrounds) with 7%nat; lia.
Qed.

Lemma C3_grid_length_witness :
  exists src hol,
    make_calendar [mlk_2014] 2014 3 (lit "Mon") = Ok (src, hol) /\
    len (month_days src)
    = 7 * ceil_div (leading_blanks (month_days src) + days_in_month 2014 3) 7 /\
    len (month_days src) mod 7 = 0 /\
    len (days src) = len (month_days src) /\
    len (weeks src) = len (month_days src) /\
    len (day_backgrounds src) = len (month_days src).
Proof.
  apply (C3_grid_length [mlk_2014] 2014 3 (lit "Mon")).
  - lia.
  - vm_compute; tauto.
Defined.

(** C4: for a valid month and any first weekday, the day-of-month values of
    the cells that are not blank are the integers 1 to the number of days of
    the month, each once; a February of a year that is not a leap year has no
    29. *)
Theorem C4_days_once (us_holidays : list (date * pystr))
    (year month : Z) (firstweekday : pystr) :
  1 <= month <= 12 ->
  In firstweekday calendar.day_abbr ->
  exists src hol,
    make_calendar us_holidays year month firstweekday = Ok (src, hol) /\
    non_blank (month_days src)
    = map str (range 1 (days_in_month year month + 1)) /\
    NoDup (non_blank (month_days src)) /\
    (forall d, In (str d) (non_blank (month_days src))
               <-> 1 <= d <= days_in_month year month) /\
    (month = 2 -> is_leap year = false ->
     ~ In (str 29) (non_blank (month_days src))).
Proof.
  intros Hm Hn.
  destruct (valid_firstweekday firstweekday Hn) as (fw & Hidx & Hfw).
  do 2 eexists; split;
    [exact (make_calendar_ok us_holidays year month firstweekday fw Hidx Hm) |].
  cbn [month_days]; rewrite (non_blank_month_cells fw year month Hm).
  assert (I : forall d, In (str d) (map str (range 1 (days_in_month year month + 1)))
                        <-> 1 <= d <= days_in_month year month).
  { intros d; rewrite in_map_iff; split.
    - intros (d' & E & Hd'); apply str_inj in E; subst d'.
      apply in_range in Hd'; lia.
    - intros Hd; exists d; split; [reflexivity | apply in_range; lia]. }
  split; [reflexivity |]; split; [| split].
  - apply Finite.Injective_map_NoDup; [| apply NoDup_range].
    intros a b; apply str_inj.
  - exact I.
  - intros -> Hleap Hin; apply I in Hin.
    unfold days_in_month in Hin; rewrite Hleap in Hin; simpl in Hin; lia.
Qed.

Lemma C4_days_once_witness :
  exists src hol,
    make_calendar [mlk_2014] 2014 2 (lit "Sun") = Ok (src, hol) /\
    non_blank (month_days src) = map str (range 1 (days_in_month 2014 2 + 1)) /\
    NoDup (non_blank (month_days src)) /\
    (forall d, In (str d) (non_blank (month_days src))
               <-> 1 <= d <= days_in_month 2014 2) /\
    (2 = 2 -> is_leap 2014 = false ->
     ~ In (str 29) (non_blank (month_days src))).
Proof.
  apply (C4_days_once [mlk_2014] 2014 2 (lit "Sun")).
  - lia.
  - vm_compute; tauto.
Defined.

(** C8: a month outside 1 to 12, or a first weekday that is not one of the
    seven names, makes the build raise an error instead of returning. *)
Theorem C8_invalid_config (us_holidays : list (date * pystr))
    (year month : Z) (firstweekday : pystr) :
  ~ (1 <= month <= 12) \/ ~ In firstweekday calendar.day_abbr ->
  exists e, make_calendar us_holidays year month firstweekday = Raise e.
Proof.
  intros H.
  destruct (in_dec (list_eq_dec N.eq_dec) firstweekday calendar.day_abbr)
    as [Hin | Hnin].
  - destruct H as [Hm | Hn]; [| contradiction].
    exists IllegalMonthError; apply make_calendar_bad_month; assumption.
  - exists ValueError; apply make_calendar_bad_weekday; exact Hnin.
Qed.

Lemma C8_invalid_config_witness :
  (exists e, make_calendar [mlk_2014] 2014 13 (lit "Mon") = Raise e) /\
  (exists e, make_calendar [mlk_2014] 2014 3 (lit "Monday") = Raise e).
Proof.
  split.
  - apply (C8_invalid_config [mlk_2014] 2014 13 (lit "Mon")); left; lia.
  - apply (C8_invalid_config [mlk_2014] 2014 3 (lit "Monday")); right.
    vm_compute; intuition discriminate.
Defined.

End MonthGrid.

(** ** Weekday labels *)

Section Labels.

Lemma Forall2_map_self {A B : Type} (R : B -> A -> Prop) (f : A -> B)
    (l : list A) :
  (forall x, In x l -> R (f x) x) -> Forall2 R (map f l) l.
Proof.
  induction l as [|x l IH]; intros H; cbn [map]; constructor.
  - apply H; left; reflexivity.
  - apply IH; intros y Hy; apply H; right; exact Hy.
Qed.

Lemma nth_rotate {A : Type} (k j : Z) (l : list A) (d : A) :
  length l = 7%nat -> 0 <= k < 7 -> 0 <= j < 7 ->
  nth (Z.to_nat j) (rotate k l) d = nth (Z.to_nat ((k + j) mod 7)) l d.
Proof.
  intros Hl Hk Hj.
  pose proof (nth_error_rotate k j l Hl Hk Hj) as E.
  assert (Hk' : 0 <= (k + j) mod 7 < 7) by (apply Z.mod_pos_bound; lia).
  rewrite (nth_error_nth' (rotate k l) d) in E by (rewrite rotate_length; lia).
  rewrite (nth_error_nth' l d) in E by lia.
  congruence.
Qed.

(** The rotation of the names and the rotation of the index cancel. *)
Lemma day_names_weekday (fw : Z) (d : date) :
  0 <= fw < 7 ->
  nth (Z.to_nat (weekday fw d)) (rotate fw calendar.day_abbr) [] = day_name d.
Proof.
  intros Hfw; pose proof (weekday_range d) as Hw.
  rewrite nth_rotate by (try reflexivity; try exact Hfw; apply closure_weekday_range).
  unfold day_name, weekday; do 2 f_equal.
  Z.div_mod_to_equations; lia.
Qed.

(** The position of a name in the rotated ordering. *)
Lemma index_rotate (fw w : Z) :
  0 <= fw < 7 -> 0 <= w < 7 ->
  index (rotate fw calendar.day_abbr) (nth (Z.to_nat w) calendar.day_abbr [])
  = Ok ((w - fw) mod 7).
Proof.
  intros Hfw Hw.
  assert (C : fw = 0 \/ fw = 1 \/ fw = 2 \/ fw = 3 \/ fw = 4 \/ fw = 5 \/ fw = 6)
    by lia.
  assert (D : w = 0 \/ w = 1 \/ w = 2 \/ w = 3 \/ w = 4 \/ w = 5 \/ w = 6) by lia.
  repeat (destruct C as [-> | C]); try subst fw;
    repeat (destruct D as [-> | D]); try subst w; reflexivity.
Qed.

Lemma closure_weekday_day (fw y m d : Z) :
  weekday fw (mkdate y m d) = (days_before fw y m + d - 1) mod 7.
Proof.
  unfold weekday, days_before.
  rewrite calendar_weekday_eq, (weekday_from_first y m d).
  Z.div_mod_to_equations; lia.
Qed.

Lemma closure_weekday_first (fw : Z) (d : date) :
  weekday fw (replace_day d 1) = days_before fw (datetime.year d) (datetime.month d).
Proof.
  unfold weekday, days_before, replace_day.
  rewrite calendar_weekday_eq; reflexivity.
Qed.

(** The cell that shows day [d] stands [d - 1] places after the blanks. *)
Lemma day_cell_position (fw y m d : Z) (i : nat) :
  1 <= m <= 12 ->
  nth_error (map cell (month_cells fw y m)) i = Some (Some (str d)) ->
  1 <= d <= days_in_month y m /\ Z.of_nat i = days_before fw y m + d - 1.
Proof.
  intros Hm H.
  assert (Hi : (i < length (map cell (month_cells fw y m)))%nat)
    by (apply nth_error_Some; congruence).
  pose proof (len_month_cells fw y m Hm) as L; unfold len in L.
  pose proof (week_count_spec fw y m Hm) as W.
  rewrite nth_error_month_cells in H by (try exact Hm; lia).
  destruct (Z.leb_spec (days_before fw y m) (Z.of_nat i));
    destruct (Z.ltb_spec (Z.of_nat i) (days_before fw y m + days_in_month y m));
    cbn [andb] in H; try discriminate.
  injection H as H; apply str_inj in H; lia.
Qed.

Lemma day_cell_exists (fw y m d : Z) :
  1 <= m <= 12 -> 1 <= d <= days_in_month y m ->
  nth_error (map cell (month_cells fw y m))
            (Z.to_nat (days_before fw y m + d - 1))
  = Some (Some (str d)).
Proof.
  intros Hm Hd.
  pose proof (week_count_spec fw y m Hm) as W.
  pose proof (days_before_range fw y m) as B.
  pose proof (days_after_range fw y m) as A.
  rewrite nth_error_month_cells by (try exact Hm; lia).
  rewrite Z2Nat.id by lia.
  destruct (Z.leb_spec (days_before fw y m) (days_before fw y m + d - 1));
    [| lia].
  destruct (Z.ltb_spec (days_before fw y m + d - 1)
                       (days_before fw y m + days_in_month y m)); [| lia].
  cbn [andb]; do 3 f_equal; lia.
Qed.

(** The weekday column of a day cell, as an index of the rotated names. *)
Lemma grid_label (fw y m d : Z) (i : nat) :
  1 <= m <= 12 -> 0 <= fw < 7 ->
  nth_error (map cell (month_cells fw y m)) i = Some (Some (str d)) ->
  nth_error (times (rotate fw calendar.day_abbr) (week_count fw y m)) i
  = nth_error (rotate fw calendar.day_abbr)
              (Z.to_nat (weekday fw (mkdate y m d))).
Proof.
  intros Hm Hfw H.
  assert (Hi : (i < length (map cell (month_cells fw y m)))%nat)
    by (apply nth_error_Some; congruence).
  pose proof (len_month_cells fw y m Hm) as L; unfold len in L.
  pose proof (week_count_spec fw y m Hm) as W.
  destruct (day_cell_position fw y m d i Hm H) as [Hd Hpos].
  rewrite nth_error_times
    by (rewrite rotate_length; change (length calendar.day_abbr) with 7%nat; lia).
  rewrite rotate_length; change (length calendar.day_abbr) with 7%nat.
  f_equal.
  rewrite closure_weekday_day, <- Hpos.
  change 7 with (Z.of_nat 7); rewrite <- Nat2Z.inj_mod, Nat2Z.id; reflexivity.
Qed.

(** The week row of the cell at position [i]. *)
Lemma grid_week (fw y m : Z) (i : nat) :
  1 <= m <= 12 ->
  (i < length (map cell (month_cells fw y m)))%nat ->
  nth_error (sum_lists (map (fun week => times [str week] 7)
                            (range 0 (week_count fw y m)))) i
  = Some (str (Z.of_nat i / 7)).
Proof.
  intros Hm Hi.
  pose proof (len_month_cells fw y m Hm) as L; unfold len in L.
  pose proof (week_count_spec fw y m Hm) as W.
  rewrite nth_error_rows, nth_error_range.
  - cbn [option_map]; do 2 f_equal.
    change 7 with (Z.of_nat 7); rewrite <- Nat2Z.inj_div; lia.
  - apply Nat.Div0.div_lt_upper_bound; lia.
Qed.

End Labels.

Section LabelClaims.

Variable us_holidays : list (date * pystr).
Variables year month : Z.
Variable firstweekday : pystr.
Hypothesis month_valid : 1 <= month <= 12.
Hypothesis firstweekday_valid : In firstweekday calendar.day_abbr.

(** C5: the weekday label of a date is the name of the rotated ordering at
    index [(date.weekday() - firstweekday) mod 7], for the highlight of a
    kept date and for the day cell of a day of the month. *)
Theorem C5_label_index :
  exists fw src hol,
    index calendar.day_abbr firstweekday = Ok fw /\
    make_calendar us_holidays year month firstweekday = Ok (src, hol) /\
    Forall2
      (fun label e =>
         nth_error (rotate fw calendar.day_abbr)
                   (Z.to_nat ((datetime.weekday (fst e) - fw) mod 7))
         = Some label)
      (holidays_days hol) (kept year month us_holidays) /\
    (forall i d,
       nth_error (month_days src) i = Some (Some (str d)) ->
       exists label,
         nth_error (days src) i = Some label /\
         nth_error (rotate fw calendar.day_abbr)
                   (Z.to_nat ((datetime.weekday (mkdate year month d) - fw) mod 7))
         = Some label).
Proof.
  destruct (valid_firstweekday firstweekday firstweekday_valid)
    as (fw & Hidx & Hfw).
  exists fw; do 2 eexists; split; [exact Hidx |]; split;
    [exact (make_calendar_ok us_holidays year month firstweekday fw Hidx
              month_valid) |].
  cbn [holidays_days month_days days]; split.
  - apply Forall2_map_self; intros e _.
    apply nth_error_nth'.
    pose proof (closure_weekday_range fw (fst e)) as Hw.
    rewrite rotate_length; change (length calendar.day_abbr) with 7%nat; lia.
  - intros i d H.
    rewrite (grid_label fw year month d i month_valid Hfw H).
    pose proof (closure_weekday_range fw (mkdate year month d)) as Hw.
    destruct (nth_error (rotate fw calendar.day_abbr)
                        (Z.to_nat (weekday fw (mkdate year month d)))) as [label |] eqn:E.
    + exists label; split; [reflexivity | exact E].
    + apply nth_error_None in E.
      rewrite rotate_length in E; change (length calendar.day_abbr) with 7%nat in E.
      lia.
Qed.

(** C9: the label of a date does not depend on the first weekday: it is the
    abbreviation of the weekday of the date, for the highlight of a kept date
    and for the day cell of a day of the month. *)
Theorem C9_label_independent :
  exists src hol,
    make_calendar us_holidays year month firstweekday = Ok (src, hol) /\
    holidays_days hol
    = map (fun e => day_name (fst e)) (kept year month us_holidays) /\
    (forall i d,
       nth_error (month_days src) i = Some (Some (str d)) ->
       nth_error (days src) i = Some (day_name (mkdate year month d))).
Proof.
  destruct (valid_firstweekday firstweekday firstweekday_valid)
    as (fw & Hidx & Hfw).
  do 2 eexists; split;
    [exact (make_calendar_ok us_holidays year month firstweekday fw Hidx
              month_valid) |].
  cbn [holidays_days month_days days]; split.
  - apply map_ext; intros e; apply day_names_weekday; exact Hfw.
  - intros i d H.
    rewrite (grid_label fw year month d i month_valid Hfw H).
    pose proof (closure_weekday_range fw (mkdate year month d)) as Hw.
    rewrite <- (day_names_weekday fw (mkdate year month d) Hfw).
    apply nth_error_nth'.
    rewrite rotate_length; change (length calendar.day_abbr) with 7%nat; lia.
Qed.

(** C2: the week of the highlight of a kept date is the position, in the
    rotated ordering, of the weekday of the first of the month, plus the day
    of the month, divided by 7 and rounded down. *)
Theorem C2_highlight_week :
  exists fw src hol,
    index calendar.day_abbr firstweekday = Ok fw /\
    make_calendar us_holidays year month firstweekday = Ok (src, hol) /\
    Forall2
      (fun week e =>
         exists p,
           index (rotate fw calendar.day_abbr)
                 (day_name (replace_day (fst e) 1)) = Ok p /\
           week = str ((p + datetime.day (fst e)) / 7))
      (holidays_weeks hol) (kept year month us_holidays).
Proof.
  destruct (valid_firstweekday firstweekday firstweekday_valid)
    as (fw & Hidx & Hfw).
  exists fw; do 2 eexists; split; [exact Hidx |]; split;
    [exact (make_calendar_ok us_holidays year month firstweekday fw Hidx
              month_valid) |].
  cbn [holidays_weeks].
  apply Forall2_map_self; intros e _.
  exists (weekday fw (replace_day (fst e) 1)); split; [| reflexivity].
  unfold day_name.
  apply index_rotate; [exact Hfw | apply weekday_range].
Qed.

End LabelClaims.

Lemma C5_label_index_witness :
  exists fw src hol,
    index calendar.day_abbr (lit "Tue") = Ok fw /\
    make_calendar [mlk_2014] 2014 1 (lit "Tue") = Ok (src, hol) /\
    Forall2
      (fun label e =>
         nth_error (rotate fw calendar.day_abbr)
                   (Z.to_nat ((datetime.weekday (fst e) - fw) mod 7))
         = Some label)
      (holidays_days hol) (kept 2014 1 [mlk_2014]) /\
    (forall i d,
       nth_error (month_days src) i = Some (Some (str d)) ->
       exists label,
         nth_error (days src) i = Some label /\
         nth_error (rotate fw calendar.day_abbr)
                   (Z.to_nat ((datetime.weekday (mkdate 2014 1 d) - fw) mod 7))
         = Some label).
Proof.
  apply (C5_label_index [mlk_2014] 2014 1 (lit "Tue")).
  - lia.
  - vm_compute; tauto.
Defined.

Lemma C9_label_independent_witness :
  exists src hol,
    make_calendar [mlk_2014] 2014 1 (lit "Tue") = Ok (src, hol) /\
    holidays_days hol = map (fun e => day_name (fst e)) (kept 2014 1 [mlk_2014]) /\
    (forall i d,
       nth_error (month_days src) i = Some (Some (str d)) ->
       nth_error (days src) i = Some (day_name (mkdate 2014 1 d))).
Proof.
  apply (C9_label_independent [mlk_2014] 2014 1 (lit "Tue")).
  - lia.
  - vm_compute; tauto.
Defined.

Lemma C2_highlight_week_witness :
  exists fw src hol,
    index calendar.day_abbr (lit "Tue") = Ok fw /\
    make_calendar [mlk_2014] 2014 1 (lit "Tue") = Ok (src, hol) /\
    Forall2
      (fun week e =>
         exists p,
           index (rotate fw calendar.day_abbr)
                 (day_name (replace_day (fst e) 1)) = Ok p /\
           week = str ((p + datetime.day (fst e)) / 7))
      (holidays_weeks hol) (kept 2014 1 [mlk_2014]).
Proof.
  apply (C2_highlight_week [mlk_2014] 2014 1 (lit "Tue")).
  - lia.
  - vm_compute; tauto.
Defined.

(** ** Weekend backgrounds *)

Section Weekend.

(** The colour and the name of column [k] of the week Monday to Sunday. *)
Lemma weekend_column (k : Z) (label bg : pystr) :
  0 <= k < 7 ->
  nth_error calendar.day_abbr (Z.to_nat k) = Some label ->
  nth_error backgrounds (Z.to_nat k) = Some bg ->
  (bg = weekend <-> In label (skipn 5 calendar.day_abbr)) /\
  (bg = weekend \/ bg = workday).
Proof.
  intros Hk Hl Hb.
  assert (C : k = 0 \/ k = 1 \/ k = 2 \/ k = 3 \/ k = 4 \/ k = 5 \/ k = 6) by lia.
  repeat (destruct C as [-> | C]); try subst k;
    injection Hl as <-; injection Hb as <-;
    vm_compute; intuition (try discriminate; auto).
Qed.

(** The colour of column [k] of the week Monday to Sunday is the weekend one
    from position 5 on. *)
Lemma weekend_position (k : Z) (bg : pystr) :
  0 <= k < 7 ->
  nth_error backgrounds (Z.to_nat k) = Some bg ->
  (bg = weekend <-> 5 <= k).
Proof.
  intros Hk Hb.
  assert (C : k = 0 \/ k = 1 \/ k = 2 \/ k = 3 \/ k = 4 \/ k = 5 \/ k = 6) by lia.
  repeat (destruct C as [-> | C]); try subst k;
    injection Hb as <-;
    (split; [intros H; try (vm_compute in H; discriminate H); lia
            | intros H; try lia; reflexivity]).
Qed.

(** Column [i mod 7] of a grid whose first column is [fw] is the column
    [(fw + i) mod 7] of the week Monday to Sunday. *)
Lemma rotated_column {A : Type} (fw : Z) (l : list A) (i : nat) :
  length l = 7%nat -> 0 <= fw < 7 ->
  nth_error (rotate fw l) (i mod 7)
  = nth_error l (Z.to_nat ((fw + Z.of_nat i) mod 7)).
Proof.
  intros Hl Hfw.
  pose proof (Nat.mod_upper_bound i 7 ltac:(lia)) as Hi.
  rewrite <- (Nat2Z.id (i mod 7)).
  rewrite nth_error_rotate by (try exact Hl; lia).
  do 2 f_equal.
  rewrite Nat2Z.inj_mod; change (Z.of_nat 7) with 7.
  Z.div_mod_to_equations; lia.
Qed.

(** C6: for every valid first weekday the grid has its cells, and the cell at
    position [i] carries the name and the colour that the week Monday to
    Sunday has at position [(firstweekday + i) mod 7]: names and colours are
    rotated alike, by the index of the first weekday.  So a cell has the
    weekend background exactly when its weekday label is one of the last two
    names of the weekday ordering (Saturday and Sunday), that is from
    position 5 of that ordering on; and the cell that shows day [d] has it
    exactly when the date of that day is a Saturday or a Sunday. *)
Theorem C6_weekend_background (us_holidays : list (date * pystr))
    (year month : Z) (firstweekday : pystr) :
  1 <= month <= 12 ->
  In firstweekday calendar.day_abbr ->
  exists fw src hol,
    index calendar.day_abbr firstweekday = Ok fw /\
    make_calendar us_holidays year month firstweekday = Ok (src, hol) /\
    length (day_backgrounds src) = length (days src) /\
    length (days src) = length (month_days src) /\
    (28 <= length (month_days src))%nat /\
    (forall i, (i < length (days src))%nat ->
       exists label bg,
         nth_error (days src) i = Some label /\
         nth_error (day_backgrounds src) i = Some bg /\
         nth_error calendar.day_abbr (Z.to_nat ((fw + Z.of_nat i) mod 7))
         = Some label /\
         nth_error backgrounds (Z.to_nat ((fw + Z.of_nat i) mod 7))
         = Some bg /\
         (bg = weekend <-> In label (skipn 5 calendar.day_abbr)) /\
         (bg = weekend <-> 5 <= (fw + Z.of_nat i) mod 7) /\
         (bg = weekend \/ bg = workday)) /\
    (forall i d bg,
       nth_error (month_days src) i = Some (Some (str d)) ->
       nth_error (day_backgrounds src) i = Some bg ->
       (bg = weekend <-> 5 <= datetime.weekday (mkdate year month d))).
Proof.
  intros Hm Hn.
  destruct (valid_firstweekday firstweekday Hn) as (fw & Hidx & Hfw).
  exists fw; do 2 eexists; split; [exact Hidx |]; split;
    [exact (make_calendar_ok us_holidays year month firstweekday fw Hidx Hm) |].
  cbn [days day_backgrounds month_days].
  pose proof (week_count_spec fw year month Hm) as W.
  pose proof (week_count_range fw year month Hm) as R.
  pose proof (len_month_cells fw year month Hm) as L; unfold len in L.
  assert (Ld : length (times (rotate fw calendar.day_abbr)
                              (week_count fw year month))
               = (Z.to_nat (week_count fw year month) * 7)%nat)
    by (rewrite length_times, rotate_length; reflexivity).
  assert (Lb : length (times (rotate fw backgrounds) (week_count fw year month))
               = (Z.to_nat (week_count fw year month) * 7)%nat)
    by (rewrite length_times, rotate_length; reflexivity).
  assert (Col : forall i, (i < Z.to_nat (week_count fw year month) * 7)%nat ->
            exists label bg,
              nth_error (times (rotate fw calendar.day_abbr)
                               (week_count fw year month)) i = Some label /\
              nth_error (times (rotate fw backgrounds)
                               (week_count fw year month)) i = Some bg /\
              nth_error calendar.day_abbr (Z.to_nat ((fw + Z.of_nat i) mod 7))
              = Some label /\
              nth_error backgrounds (Z.to_nat ((fw + Z.of_nat i) mod 7))
              = Some bg).
  { intros i Hi.
    assert (Hk : 0 <= (fw + Z.of_nat i) mod 7 < 7)
      by (apply Z.mod_pos_bound; lia).
    rewrite !nth_error_times by (rewrite rotate_length; exact Hi).
    rewrite !rotate_length.
    change (length calendar.day_abbr) with 7%nat.
    change (length backgrounds) with 7%nat.
    rewrite !rotated_column by (try reflexivity; exact Hfw).
    destruct (nth_error calendar.day_abbr
                        (Z.to_nat ((fw + Z.of_nat i) mod 7))) as [label |] eqn:El;
      [| apply nth_error_None in El;
         change (length calendar.day_abbr) with 7%nat in El; lia].
    destruct (nth_error backgrounds
                        (Z.to_nat ((fw + Z.of_nat i) mod 7))) as [bg |] eqn:Eb;
      [| apply nth_error_None in Eb;
         change (length backgrounds) with 7%nat in Eb; lia].
    exists label, bg; repeat split. }
  split; [congruence |]; split; [lia |]; split; [lia |]; split.
  - intros i Hi; rewrite Ld in Hi.
    destruct (Col i Hi) as (label & bg & Hl & Hb & El & Eb).
    assert (Hk : 0 <= (fw + Z.of_nat i) mod 7 < 7)
      by (apply Z.mod_pos_bound; lia).
    destruct (weekend_column _ label bg Hk El Eb) as [Hiff Hor].
    exists label, bg.
    split; [exact Hl |]; split; [exact Hb |]; split; [exact El |];
      split; [exact Eb |]; split; [exact Hiff |]; split; [| exact Hor].
    exact (weekend_position _ bg Hk Eb).
  - intros i d bg Hc Hb.
    assert (Hi : (i < Z.to_nat (week_count fw year month) * 7)%nat).
    { rewrite <- Lb; apply nth_error_Some; congruence. }
    destruct (Col i Hi) as (label & bg' & _ & Hb' & _ & Eb).
    assert (bg' = bg) by congruence; subst bg'.
    assert (Hk : 0 <= (fw + Z.of_nat i) mod 7 < 7)
      by (apply Z.mod_pos_bound; lia).
    rewrite (weekend_position _ bg Hk Eb).
    destruct (day_cell_position fw year month d i Hm Hc) as [_ Hpos].
    replace ((fw + Z.of_nat i) mod 7)
      with (datetime.weekday (mkdate year month d)); [reflexivity |].
    rewrite Hpos, (weekday_from_first year month d).
    unfold days_before; rewrite calendar_weekday_eq.
    Z.div_mod_to_equations; lia.
Qed.

Lemma C6_weekend_background_witness :
  exists fw src hol,
    index calendar.day_abbr (lit "Sun") = Ok fw /\
    make_calendar [mlk_2014] 2014 1 (lit "Sun") = Ok (src, hol) /\
    length (day_backgrounds src) = length (days src) /\
    length (days src) = length (month_days src) /\
    (28 <= length (month_days src))%nat /\
    (forall i, (i < length (days src))%nat ->
       exists label bg,
         nth_error (days src) i = Some label /\
         nth_error (day_backgrounds src) i = Some bg /\
         nth_error calendar.day_abbr (Z.to_nat ((fw + Z.of_nat i) mod 7))
         = Some label /\
         nth_error backgrounds (Z.to_nat ((fw + Z.of_nat i) mod 7))
         = Some bg /\
         (bg = weekend <-> In label (skipn 5 calendar.day_abbr)) /\
         (bg = weekend <-> 5 <= (fw + Z.of_nat i) mod 7) /\
         (bg = weekend \/ bg = workday)) /\
    (forall i d bg,
       nth_error (month_days src) i = Some (Some (str d)) ->
       nth_error (day_backgrounds src) i = Some bg ->
       (bg = weekend <-> 5 <= datetime.weekday (mkdate 2014 1 d))).
Proof.
  apply (C6_weekend_background [mlk_2014] 2014 1 (lit "Sun")).
  - lia.
  - vm_compute; tauto.
Defined.

(** With Sunday first, the weekend columns are the first and the last one:
    the colours follow the names, not the column positions. *)
Example weekend_columns_sunday_first :
  exists src hol,
    make_calendar [mlk_2014] 2014 1 (lit "Sun") = Ok (src, hol) /\
    firstn 7 (days src)
    = map lit ["Sun"; "Mon"; "Tue"; "Wed"; "Thu"; "Fri"; "Sat"]%string /\
    firstn 7 (day_backgrounds src)
    = [weekend; workday; workday; workday; workday; workday; weekend].
Proof. do 2 eexists; split; [vm_compute; reflexivity |]; split; reflexivity. Qed.

End Weekend.

(** ** Substrings, deletion and stripping *)

Section Strings.

Lemma startswith_spec (p s : pystr) :
  startswith p s = true <-> exists t, s = p ++ t.
Proof.
  revert s; induction p as [|x p IH]; intros s; cbn [startswith].
  - split; [intros _; exists s; reflexivity | reflexivity].
  - destruct s as [|y s].
    + split; [discriminate | intros [t Ht]; discriminate Ht].
    + rewrite andb_true_iff, N.eqb_eq, IH; split.
      * intros [-> [t ->]]; exists t; reflexivity.
      * intros [t Ht]; injection Ht as -> ->; split; [reflexivity | eauto].
Qed.

Lemma contains_occurs (p s : pystr) : contains p s = true <-> occurs p s.
Proof.
  unfold occurs; induction s as [|c s IH]; cbn [contains];
    rewrite orb_true_iff, startswith_spec.
  - split.
    + intros [[t Ht] | H]; [| discriminate].
      exists [], t; exact Ht.
    + intros (a & b & H); left.
      destruct a; [exists b; exact H | discriminate H].
  - rewrite IH; split.
    + intros [[t Ht] | (a & b & ->)].
      * exists [], t; exact Ht.
      * exists (c :: a), b; reflexivity.
    + intros (a & b & H); destruct a as [|c' a].
      * left; exists b; exact H.
      * right; injection H as _ ->; exists a, b; reflexivity.
Qed.

Lemma remove_scan_skip (old : pystr) (k : nat) (s : pystr) :
  remove_scan old k s = remove_scan old O (skipn k s).
Proof.
  revert k; induction s as [|c s IH]; intros [|k]; try reflexivity.
  cbn [remove_scan skipn]; apply IH.
Qed.

Lemma skipn_prefix {A : Type} (a t : list A) : skipn (length a) (a ++ t) = t.
Proof. induction a as [|x a IH]; [reflexivity | exact IH]. Qed.

Lemma remove_scan_deleted (o : N) (old' s : pystr) (n : nat) :
  (length s <= n)%nat ->
  deleted (o :: old') s (remove_scan (o :: old') O s).
Proof.
  revert s; induction n as [|n IH]; intros [|c s] H; try (cbn in H; lia);
    try constructor.
  cbn [remove_scan].
  destruct (startswith (o :: old') (c :: s)) eqn:E.
  - apply startswith_spec in E; destruct E as [t Ht].
    rewrite remove_scan_skip.
    injection Ht as -> ->.
    replace (length (o :: old') - 1)%nat with (length old')
      by (cbn [length]; lia).
    rewrite skipn_prefix.
    change (o :: old' ++ t) with ((o :: old') ++ t).
    apply deleted_match, IH.
    cbn [length] in H; rewrite length_app in H; lia.
  - apply deleted_keep.
    + intros Ht; apply startswith_spec in Ht; congruence.
    + apply IH; cbn [length] in H; lia.
Qed.

(** [remove] deletes the occurrences of a non-empty [old]. *)
Lemma remove_deleted (old s : pystr) :
  old <> [] -> deleted old s (remove old s).
Proof.
  destruct old as [|o old']; [congruence | intros _].
  apply (remove_scan_deleted o old' s (length s)); lia.
Qed.

(** The deletion of a non-empty [p] has one result only. *)
Lemma deleted_functional (p s r r' : pystr) :
  p <> [] -> deleted p s r -> deleted p s r' -> r = r'.
Proof.
  intros Hp H; revert r'.
  induction H as [| s r H IH | c s r Hc H IH]; intros r' H'.
  - inversion H' as [| s0 r0 H0 E |]; [reflexivity |].
    apply app_eq_nil in E; tauto.
  - inversion H' as [E | s0 r0 H0 E | c s0 r0 Hc H0 E].
    + symmetry in E; apply app_eq_nil in E; tauto.
    + apply app_inv_head in E; subst s0; apply IH; exact H0.
    + exfalso; apply Hc; exists s; exact E.
  - inversion H' as [| s0 r0 H0 E | c0 s0 r0 Hc0 H0]; subst.
    + exfalso; apply Hc; exists s0; congruence.
    + f_equal; apply IH; exact H0.
Qed.

Lemma lstrip_spec (s : pystr) :
  exists a,
    s = a ++ lstrip s /\
    Forall (fun c => isspace c = true) a /\
    (forall c r, lstrip s = c :: r -> isspace c = false).
Proof.
  induction s as [|c s (a & Hs & Ha & Hc)]; cbn [lstrip].
  - exists []; split; [reflexivity |]; split; [constructor | discriminate].
  - destruct (isspace c) eqn:E.
    + exists (c :: a); split; [cbn [app]; congruence |].
      split; [constructor; assumption | exact Hc].
    + exists []; split; [reflexivity |]; split; [constructor |].
      intros c' r [= <- _]; exact E.
Qed.

Lemma rstrip_spec (s : pystr) :
  exists b,
    s = rstrip s ++ b /\
    Forall (fun c => isspace c = true) b /\
    (forall c r, rstrip s = r ++ [c] -> isspace c = false).
Proof.
  destruct (lstrip_spec (rev s)) as (a & Hs & Ha & Hc).
  exists (rev a); unfold rstrip; split; [| split].
  - rewrite <- rev_app_distr, <- Hs, rev_involutive; reflexivity.
  - apply Forall_rev; exact Ha.
  - intros c r H; apply (Hc c (rev r)).
    rewrite <- (rev_involutive (lstrip (rev s))), H, rev_app_distr.
    reflexivity.
Qed.

(** [strip] takes the white space off both ends, and nothing else. *)
Lemma strip_stripped (s : pystr) : stripped s (strip s).
Proof.
  destruct (lstrip_spec s) as (a & Hs & Ha & Hc).
  destruct (rstrip_spec (lstrip s)) as (b & Hl & Hb & Hd).
  exists a, b; unfold strip; split; [| split; [| split; [| split]]].
  - rewrite <- Hl; exact Hs.
  - exact Ha.
  - exact Hb.
  - intros c r H; apply (Hc c (r ++ b)).
    rewrite Hl at 1; rewrite H; reflexivity.
  - exact Hd.
Qed.

End Strings.

(** ** The highlight cells *)

Section Highlights.

Lemma kept_in (year month : Z) (us_holidays : list (date * pystr))
    (e : date * pystr) :
  In e (kept year month us_holidays)
  <-> In e us_holidays /\ in_month year month e = true
      /\ occurs US_OPM (snd e).
Proof.
  unfold kept; rewrite filter_In, andb_true_iff, contains_occurs; tauto.
Qed.

(** C7, as the code has it: the highlight build keeps the annotated dates of
    the month of the configuration whose summary carries the marker, one row
    for each and in the order of the input; every other entry is left out, and
    no input list makes the build fail. *)
Theorem C7_stable_filter (us_holidays : list (date * pystr))
    (year month : Z) (firstweekday : pystr) :
  1 <= month <= 12 ->
  In firstweekday calendar.day_abbr ->
  exists src hol,
    make_calendar us_holidays year month firstweekday = Ok (src, hol) /\
    let ks := filter (fun e => in_month year month e
                               && contains US_OPM (snd e)) us_holidays in
    holidays_days hol = map (fun e => day_name (fst e)) ks /\
    length (holidays_weeks hol) = length ks /\
    month_holidays hol = map (fun e => strip (remove US_OPM (snd e))) ks.
Proof.
  intros Hm Hn.
  destruct (valid_firstweekday firstweekday Hn) as (fw & Hidx & Hfw).
  do 2 eexists; split;
    [exact (make_calendar_ok us_holidays year month firstweekday fw Hidx Hm) |].
  cbn [holidays_days holidays_weeks month_holidays]; split; [| split].
  - apply map_ext; intros e; apply day_names_weekday; exact Hfw.
  - apply length_map.
  - reflexivity.
Qed.

Lemma C7_stable_filter_witness :
  exists src hol,
    make_calendar [(mkdate 2014 3 17, lit "Holiday X"); mlk_2014] 2014 1
                  (lit "Mon") = Ok (src, hol) /\
    let ks := filter (fun e => in_month 2014 1 e && contains US_OPM (snd e))
                     [(mkdate 2014 3 17, lit "Holiday X"); mlk_2014] in
    holidays_days hol = map (fun e => day_name (fst e)) ks /\
    length (holidays_weeks hol) = length ks /\
    month_holidays hol = map (fun e => strip (remove US_OPM (snd e))) ks.
Proof.
  apply (C7_stable_filter [(mkdate 2014 3 17, lit "Holiday X"); mlk_2014]
                          2014 1 (lit "Mon")).
  - lia.
  - vm_compute; tauto.
Defined.

(** C7 as stated fails: an annotated date of March 2014 whose summary lacks
    the marker lies in the month of the configuration and yet gets no
    highlight cell. *)
Lemma C7_counterexample :
  let us_holidays := [(mkdate 2014 3 17, lit "Holiday X")] in
  filter (in_month 2014 3) us_holidays = us_holidays /\
  exists src hol,
    make_calendar us_holidays 2014 3 (lit "Mon") = Ok (src, hol) /\
    holidays_days hol = [] /\
    holidays_weeks hol = [] /\
    month_holidays hol = [].
Proof.
  split; [reflexivity |].
  do 2 eexists; split; [vm_compute; reflexivity |].
  split; [| split]; reflexivity.
Qed.

(** C10: every highlight cell comes from an annotated date of the input whose
    summary contains the marker, and its label is that summary with the
    occurrences of the marker deleted and the white space at both ends
    stripped; a summary without the marker gives no cell. *)
Theorem C10_marked_labels (us_holidays : list (date * pystr))
    (year month : Z) (firstweekday : pystr) :
  1 <= month <= 12 ->
  In firstweekday calendar.day_abbr ->
  exists src hol,
    make_calendar us_holidays year month firstweekday = Ok (src, hol) /\
    length (holidays_days hol) = length (month_holidays hol) /\
    length (holidays_weeks hol) = length (month_holidays hol) /\
    Forall2
      (fun label e =>
         In e us_holidays /\
         occurs US_OPM (snd e) /\
         exists r, deleted US_OPM (snd e) r /\ stripped r label)
      (month_holidays hol) (kept year month us_holidays) /\
    (forall e, In e (kept year month us_holidays) -> occurs US_OPM (snd e)).
Proof.
  intros Hm Hn.
  destruct (valid_firstweekday firstweekday Hn) as (fw & Hidx & Hfw).
  do 2 eexists; split;
    [exact (make_calendar_ok us_holidays year month firstweekday fw Hidx Hm) |].
  cbn [holidays_days holidays_weeks month_holidays].
  rewrite !length_map; split; [reflexivity |]; split; [reflexivity |]; split.
  - apply Forall2_map_self; intros e He.
    apply kept_in in He; destruct He as (Hin & _ & Hocc).
    split; [exact Hin |]; split; [exact Hocc |].
    exists (remove US_OPM (snd e)); split.
    + apply remove_deleted; discriminate.
    + apply strip_stripped.
  - intros e He; apply kept_in in He; tauto.
Qed.

Lemma C10_marked_labels_witness :
  exists src hol,
    make_calendar [(mkdate 2014 1 1, lit "New Year's Day"); mlk_2014] 2014 1
                  (lit "Mon") = Ok (src, hol) /\
    length (holidays_days hol) = length (month_holidays hol) /\
    length (holidays_weeks hol) = length (month_holidays hol) /\
    Forall2
      (fun label e =>
         In e [(mkdate 2014 1 1, lit "New Year's Day"); mlk_2014] /\
         occurs US_OPM (snd e) /\
         exists r, deleted US_OPM (snd e) r /\ stripped r label)
      (month_holidays hol)
      (kept 2014 1 [(mkdate 2014 1 1, lit "New Year's Day"); mlk_2014]) /\
    (forall e,
       In e (kept 2014 1 [(mkdate 2014 1 1, lit "New Year's Day"); mlk_2014]) ->
       occurs US_OPM (snd e)).
Proof.
  apply (C10_marked_labels [(mkdate 2014 1 1, lit "New Year's Day"); mlk_2014]
                           2014 1 (lit "Mon")).
  - lia.
  - vm_compute; tauto.
Defined.

(** The label of the sample entry. *)
Example mlk_label :
  strip (remove US_OPM (snd mlk_2014))
  = lit "Birthday of Martin Luther King, Jr.".
Proof. reflexivity. Qed.

(** Where the highlight of a kept date lands, against the cell of its day:
    the same weekday column, and the week of the following day. *)
Lemma highlight_against_cell (us_holidays : list (date * pystr))
    (year month fw : Z) (firstweekday : pystr) (e : date * pystr) :
  1 <= month <= 12 ->
  index calendar.day_abbr firstweekday = Ok fw ->
  In e (kept year month us_holidays) ->
  valid (fst e) = true ->
  exists src hol i,
    make_calendar us_holidays year month firstweekday = Ok (src, hol) /\
    nth_error (month_days src) i = Some (Some (str (datetime.day (fst e)))) /\
    nth_error (days src) i
    = Some (nth (Z.to_nat (weekday fw (fst e))) (rotate fw calendar.day_abbr) []) /\
    nth_error (weeks src) i = Some (str (Z.of_nat i / 7)) /\
    str ((weekday fw (replace_day (fst e) 1) + datetime.day (fst e)) / 7)
    = str ((Z.of_nat i + 1) / 7).
Proof.
  intros Hm Hidx He Hv.
  destruct (index_day_abbr firstweekday fw Hidx) as [Hfw _].
  apply kept_in in He; destruct He as (_ & Hin & _).
  unfold in_month in Hin; apply andb_true_iff in Hin.
  destruct Hin as [Hy Hmo]; apply Z.eqb_eq in Hy, Hmo.
  unfold valid in Hv; rewrite !andb_true_iff in Hv.
  destruct Hv as [[_ Hd1] Hd2]; apply Z.leb_le in Hd1, Hd2.
  rewrite Hy, Hmo in Hd2.
  pose proof (days_before_range fw year month) as B.
  pose proof (day_cell_exists fw year month (datetime.day (fst e)) Hm
                (conj Hd1 Hd2)) as Hcell.
  exists (mksource (times (rotate fw calendar.day_abbr) (week_count fw year month))
            (sum_lists (map (fun week => times [str week] 7)
                            (range 0 (week_count fw year month))))
            (map cell (month_cells fw year month))
            (times (rotate fw backgrounds) (week_count fw year month))).
  eexists.
  exists (Z.to_nat (days_before fw year month + datetime.day (fst e) - 1)).
  split; [exact (make_calendar_ok us_holidays year month firstweekday fw Hidx Hm) |].
  cbn [month_days days weeks]; split; [exact Hcell |]; split; [| split].
  - rewrite (grid_label fw year month _ _ Hm Hfw Hcell).
    replace (mkdate year month (datetime.day (fst e))) with (fst e)
      by (destruct (fst e); cbn in *; congruence).
    apply nth_error_nth'.
    pose proof (closure_weekday_range fw (fst e)).
    rewrite rotate_length; change (length calendar.day_abbr) with 7%nat; lia.
  - apply grid_week; [exact Hm |].
    apply nth_error_Some; congruence.
  - rewrite closure_weekday_first, Hy, Hmo.
    do 2 f_equal; lia.
Qed.

(** C1 fails on the code: with Tuesday as first weekday, the holiday of Monday
    20 January 2014 is highlighted in week 3, while the cell of day 20 is in
    the last column of week 2. *)
Theorem C1_highlight_off_grid :
  exists src hol,
    make_calendar [mlk_2014] 2014 1 (lit "Tue") = Ok (src, hol) /\
    in_month 2014 1 mlk_2014 = true /\
    nth_error (month_days src) 20 = Some (Some (str 20)) /\
    nth_error (days src) 20 = Some (lit "Mon") /\
    nth_error (weeks src) 20 = Some (str 2) /\
    holidays_days hol = [lit "Mon"] /\
    holidays_weeks hol = [str 3] /\
    str 3 <> str 2.
Proof.
  do 2 eexists; split; [vm_compute; reflexivity |].
  repeat (split; [reflexivity |]).
  intros H; apply str_inj in H; discriminate H.
Qed.

End Highlights.

(** ** The plot: ranges, title and data sources *)

Section Plot.

Variable us_holidays : list (date * pystr).
Variables year month : Z.
Variable name : pystr.

Lemma getitem_month_name :
  1 <= month <= 12 ->
  getitem calendar.month_name month
  = Ok (nth (Z.to_nat month) calendar.month_name []).
Proof.
  intros H; apply getitem_nth; [lia |].
  apply nth_error_nth'; change (length calendar.month_name) with 13%nat; lia.
Qed.

(** The plot of a valid configuration, field by field. *)
Lemma make_calendar_plot_ok (fw : Z) :
  index calendar.day_abbr name = Ok fw ->
  1 <= month <= 12 ->
  make_calendar_plot us_holidays year month name
  = Ok {| x_range := rotate fw calendar.day_abbr;
          y_range := rev (map str (range 0 (week_count fw year month)));
          title_text := nth (Z.to_nat month) calendar.month_name [];
          source :=
            {| days := times (rotate fw calendar.day_abbr)
                             (week_count fw year month);
               weeks := sum_lists (map (fun week => times [str week] 7)
                                       (range 0 (week_count fw year month)));
               month_days := map cell (month_cells fw year month);
               day_backgrounds := times (rotate fw backgrounds)
                                        (week_count fw year month) |};
          holidays_source :=
            {| holidays_days :=
                 map (fun e => nth (Z.to_nat (weekday fw (fst e)))
                                   (rotate fw calendar.day_abbr) [])
                     (kept year month us_holidays);
               holidays_weeks :=
                 map (fun e => str ((weekday fw (replace_day (fst e) 1)
                                     + datetime.day (fst e)) / 7))
                     (kept year month us_holidays);
               month_holidays :=
                 map (fun e => strip (remove US_OPM (snd e)))
                     (kept year month us_holidays) |} |}.
Proof.
  intros Hidx Hm.
  destruct (index_day_abbr name fw Hidx) as [Hfw _].
  unfold make_calendar_plot.
  rewrite Hidx; cbn [bind].
  rewrite (itermonthdays_ok fw year month Hm); cbn [bind].
  rewrite (pick_weekdays_rotate fw calendar.day_abbr eq_refl Hfw); cbn [bind].
  rewrite (pick_weekdays_rotate fw (repeat workday 5 ++ repeat weekend 2)
             eq_refl Hfw); cbn [bind].
  rewrite (mapM_ok _ (fun e => nth (Z.to_nat (weekday fw (fst e)))
                                   (rotate fw calendar.day_abbr) []))
    by (intros e _; apply getitem_day_names; exact Hfw).
  cbn [bind]; rewrite (getitem_month_name Hm); cbn [bind].
  rewrite times_singleton.
  unfold holidays; rewrite !map_map.
  reflexivity.
Qed.

Lemma make_calendar_plot_bad_weekday :
  ~ In name calendar.day_abbr ->
  make_calendar_plot us_holidays year month name = Raise ValueError.
Proof.
  intros H; unfold make_calendar_plot, index.
  rewrite (index_from_not_in _ _ 0 H); reflexivity.
Qed.

Lemma make_calendar_plot_bad_month :
  In name calendar.day_abbr -> ~ (1 <= month <= 12) ->
  make_calendar_plot us_holidays year month name = Raise IllegalMonthError.
Proof.
  intros Hn Hm; destruct (valid_firstweekday name Hn) as (fw & Hidx & _).
  unfold make_calendar_plot; rewrite Hidx; cbn [bind].
  unfold calendar.itermonthdays; rewrite (monthrange_illegal year month Hm).
  reflexivity.
Qed.

(** The three cases of a configuration. *)
Lemma config_cases :
  (exists fw, index calendar.day_abbr name = Ok fw /\ 0 <= fw < 7
              /\ 1 <= month <= 12)
  \/ (In name calendar.day_abbr /\ ~ (1 <= month <= 12))
  \/ ~ In name calendar.day_abbr.
Proof.
  destruct (in_dec (list_eq_dec N.eq_dec) name calendar.day_abbr) as [Hin | Hn];
    [| right; right; exact Hn].
  destruct (Z_le_dec 1 month); [destruct (Z_le_dec month 12) |].
  - left; destruct (valid_firstweekday name Hin) as (fw & Hidx & Hfw).
    exists fw; repeat split; try assumption; lia.
  - right; left; split; [exact Hin | lia].
  - right; left; split; [exact Hin | lia].
Qed.

(** The data sources inside the plot are those of [make_calendar], and the
    two fail alike. *)
Lemma make_calendar_plot_sources :
  sources_of (make_calendar_plot us_holidays year month name)
  = make_calendar us_holidays year month name.
Proof.
  destruct config_cases as [(fw & Hidx & _ & Hm) | [[Hin Hm] | Hn]].
  - rewrite (make_calendar_plot_ok fw Hidx Hm),
            (make_calendar_ok us_holidays year month name fw Hidx Hm).
    reflexivity.
  - rewrite (make_calendar_plot_bad_month Hin Hm),
            (make_calendar_bad_month us_holidays year month name Hin Hm).
    reflexivity.
  - rewrite (make_calendar_plot_bad_weekday Hn),
            (make_calendar_bad_weekday us_holidays year month name Hn).
    reflexivity.
Qed.

End Plot.

(** ** Outcomes, and how the holiday data enters *)

Section Outcomes.

Variables year month : Z.
Variable firstweekday : pystr.

(** The build returns exactly on a known first weekday and a month from 1 to
    12; an unknown first weekday gives [ValueError], whatever the month; a
    known one with a bad month gives [IllegalMonthError]; and no indexing of
    the function ever fails. *)
Theorem make_calendar_outcome (us_holidays : list (date * pystr)) :
  ((exists p, make_calendar_plot us_holidays year month firstweekday = Ok p)
   <-> In firstweekday calendar.day_abbr /\ 1 <= month <= 12) /\
  (make_calendar_plot us_holidays year month firstweekday = Raise ValueError
   <-> ~ In firstweekday calendar.day_abbr) /\
  (make_calendar_plot us_holidays year month firstweekday
   = Raise IllegalMonthError
   <-> In firstweekday calendar.day_abbr /\ ~ (1 <= month <= 12)) /\
  make_calendar_plot us_holidays year month firstweekday <> Raise IndexError.
Proof.
  destruct (config_cases month firstweekday)
    as [(fw & Hidx & Hfw & Hm) | [[Hin Hm] | Hn]].
  - assert (Hin : In firstweekday calendar.day_abbr).
    { destruct (index_day_abbr firstweekday fw Hidx) as [_ Hnth].
      apply nth_error_In in Hnth; exact Hnth. }
    rewrite (make_calendar_plot_ok us_holidays year month firstweekday fw Hidx Hm).
    split; [| split; [| split]].
    + split; [intros _; split; assumption | intros _; eexists; reflexivity].
    + split; [discriminate | intros H; contradiction].
    + split; [discriminate | intros [_ H]; contradiction].
    + discriminate.
  - rewrite (make_calendar_plot_bad_month us_holidays year month firstweekday
               Hin Hm).
    split; [| split; [| split]].
    + split; [intros [p Hp]; discriminate Hp | intros [_ H]; contradiction].
    + split; [discriminate | intros H; contradiction].
    + split; [intros _; split; assumption | reflexivity].
    + discriminate.
  - rewrite (make_calendar_plot_bad_weekday us_holidays year month firstweekday
               Hn).
    split; [| split; [| split]].
    + split; [intros [p Hp]; discriminate Hp | intros [H _]; contradiction].
    + split; [intros _; exact Hn | reflexivity].
    + split; [discriminate | intros [H _]; contradiction].
    + discriminate.
Qed.

(** The holiday data reaches the holiday source only: two calls that differ
    in [us_holidays] alone fail alike, or return plots with the same ranges,
    title and day cells. *)
Theorem grid_independent_of_holidays (us us' : list (date * pystr)) :
  match make_calendar_plot us year month firstweekday,
        make_calendar_plot us' year month firstweekday with
  | Ok p, Ok p' =>
      x_range p = x_range p' /\ y_range p = y_range p' /\
      title_text p = title_text p' /\ source p = source p'
  | Raise e, Raise e' => e = e'
  | _, _ => False
  end.
Proof.
  destruct (config_cases month firstweekday)
    as [(fw & Hidx & Hfw & Hm) | [[Hin Hm] | Hn]].
  - rewrite !(make_calendar_plot_ok _ year month firstweekday fw Hidx Hm).
    cbn [x_range y_range title_text source]; repeat split.
  - rewrite !(make_calendar_plot_bad_month _ year month firstweekday Hin Hm).
    reflexivity.
  - rewrite !(make_calendar_plot_bad_weekday _ year month firstweekday Hn).
    reflexivity.
Qed.

Lemma kept_idempotent (us : list (date * pystr)) :
  kept year month (kept year month us) = kept year month us.
Proof.
  unfold kept; induction us as [|e us IH]; [reflexivity |].
  cbn [filter].
  destruct (in_month year month e && contains US_OPM (snd e)) eqn:E;
    [| exact IH].
  cbn [filter]; rewrite E, IH; reflexivity.
Qed.

Lemma kept_app (us1 us2 : list (date * pystr)) :
  kept year month (us1 ++ us2) = kept year month us1 ++ kept year month us2.
Proof. unfold kept; apply filter_app. Qed.

Lemma holidays_kept (us : list (date * pystr)) :
  holidays year month us
  = map (fun e => (fst e, strip (remove US_OPM (snd e)))) (kept year month us).
Proof. reflexivity. Qed.

(** Only the entries of the month that carry the marker matter: dropping all
    the others from [us_holidays] beforehand changes nothing, be it the plot
    or the error. *)
Theorem make_calendar_prefiltered (us_holidays : list (date * pystr)) :
  make_calendar_plot
    (filter (fun e => (datetime.year (fst e) =? year)
                      && (datetime.month (fst e) =? month)
                      && contains US_OPM (snd e)) us_holidays)
    year month firstweekday
  = make_calendar_plot us_holidays year month firstweekday.
Proof.
  change (filter _ us_holidays) with (kept year month us_holidays).
  unfold make_calendar_plot.
  rewrite !holidays_kept, kept_idempotent; reflexivity.
Qed.

(** The holiday cells of a concatenated input are those of the first part
    followed by those of the second, column by column. *)
Theorem highlights_of_concatenation (us1 us2 : list (date * pystr)) :
  1 <= month <= 12 ->
  In firstweekday calendar.day_abbr ->
  exists p1 p2 p,
    make_calendar_plot us1 year month firstweekday = Ok p1 /\
    make_calendar_plot us2 year month firstweekday = Ok p2 /\
    make_calendar_plot (us1 ++ us2) year month firstweekday = Ok p /\
    holidays_days (holidays_source p)
    = holidays_days (holidays_source p1) ++ holidays_days (holidays_source p2) /\
    holidays_weeks (holidays_source p)
    = holidays_weeks (holidays_source p1) ++ holidays_weeks (holidays_source p2) /\
    month_holidays (holidays_source p)
    = month_holidays (holidays_source p1) ++ month_holidays (holidays_source p2).
Proof.
  intros Hm Hn.
  destruct (valid_firstweekday firstweekday Hn) as (fw & Hidx & Hfw).
  do 3 eexists.
  rewrite !(make_calendar_plot_ok _ year month firstweekday fw Hidx Hm).
  do 3 (split; [reflexivity |]).
  cbn [holidays_source holidays_days holidays_weeks month_holidays].
  rewrite kept_app, !map_app; repeat split.
Qed.

End Outcomes.

Lemma highlights_of_concatenation_witness :
  exists p1 p2 p,
    make_calendar_plot [mlk_2014] 2014 1 (lit "Mon") = Ok p1 /\
    make_calendar_plot [(mkdate 2014 1 1, lit "New Year's Day (US-OPM)")]
                       2014 1 (lit "Mon") = Ok p2 /\
    make_calendar_plot
      ([mlk_2014] ++ [(mkdate 2014 1 1, lit "New Year's Day (US-OPM)")])
      2014 1 (lit "Mon") = Ok p /\
    holidays_days (holidays_source p)
    = holidays_days (holidays_source p1) ++ holidays_days (holidays_source p2) /\
    holidays_weeks (holidays_source p)
    = holidays_weeks (holidays_source p1) ++ holidays_weeks (holidays_source p2) /\
    month_holidays (holidays_source p)
    = month_holidays (holidays_source p1) ++ month_holidays (holidays_source p2).
Proof.
  apply (highlights_of_concatenation 2014 1 (lit "Mon") [mlk_2014]
           [(mkdate 2014 1 1, lit "New Year's Day (US-OPM)")]).
  - lia.
  - vm_compute; tauto.
Defined.

(** ** Where a highlight lands *)

Section Landing.

Lemma in_y_range (wc v : Z) :
  In (str v) (rev (map str (range 0 wc))) <-> 0 <= v < wc.
Proof.
  rewrite <- in_rev, in_map_iff; split.
  - intros (w & E & Hw); apply str_inj in E; subst w.
    apply in_range in Hw; exact Hw.
  - intros H; exists v; split; [reflexivity | apply in_range; exact H].
Qed.

(** The highlight of the [k]-th kept date and the cell of its day, in the
    columns of a valid configuration. *)
Lemma highlight_position (us_holidays : list (date * pystr))
    (year month fw : Z) (k : nat) (e : date * pystr) :
  1 <= month <= 12 -> 0 <= fw < 7 ->
  nth_error (kept year month us_holidays) k = Some e ->
  valid (fst e) = true ->
  let b := days_before fw year month in
  let d := datetime.day (fst e) in
  let label := nth (Z.to_nat (weekday fw (fst e)))
                   (rotate fw calendar.day_abbr) [] in
  1 <= d <= days_in_month year month /\
  weekday fw (fst e) = (b + d - 1) mod 7 /\
  nth_error (map (fun e => nth (Z.to_nat (weekday fw (fst e)))
                               (rotate fw calendar.day_abbr) [])
                 (kept year month us_holidays)) k = Some label /\
  nth_error (map (fun e => str ((weekday fw (replace_day (fst e) 1)
                                 + datetime.day (fst e)) / 7))
                 (kept year month us_holidays)) k = Some (str ((b + d) / 7)) /\
  nth_error (map cell (month_cells fw year month)) (Z.to_nat (b + d - 1))
  = Some (Some (str d)) /\
  nth_error (times (rotate fw calendar.day_abbr) (week_count fw year month))
            (Z.to_nat (b + d - 1)) = Some label /\
  nth_error (sum_lists (map (fun week => times [str week] 7)
                            (range 0 (week_count fw year month))))
            (Z.to_nat (b + d - 1)) = Some (str ((b + d - 1) / 7)).
Proof.
  intros Hm Hfw Hk Hv b d label.
  assert (He : In e (kept year month us_holidays))
    by (eapply nth_error_In; exact Hk).
  apply kept_in in He; destruct He as (_ & Hin & _).
  unfold in_month in Hin; apply andb_true_iff in Hin.
  destruct Hin as [Hy Hmo]; apply Z.eqb_eq in Hy, Hmo.
  unfold valid in Hv; rewrite !andb_true_iff in Hv.
  destruct Hv as [[_ Hd1] Hd2]; apply Z.leb_le in Hd1, Hd2.
  rewrite Hy, Hmo in Hd2.
  assert (Ee : fst e = mkdate year month d)
    by (subst d; destruct (fst e); cbn in *; congruence).
  pose proof (days_before_range fw year month) as B; fold b in B.
  pose proof (day_cell_exists fw year month d Hm (conj Hd1 Hd2)) as Hcell.
  fold b in Hcell.
  split; [exact (conj Hd1 Hd2) |]; split; [| split; [| split; [| split; [| split]]]].
  - rewrite Ee; apply closure_weekday_day.
  - rewrite nth_error_map, Hk; reflexivity.
  - rewrite nth_error_map, Hk; cbn [option_map].
    rewrite closure_weekday_first, Hy, Hmo; reflexivity.
  - exact Hcell.
  - rewrite (grid_label fw year month d _ Hm Hfw Hcell), <- Ee.
    apply nth_error_nth'.
    pose proof (closure_weekday_range fw (fst e)).
    rewrite rotate_length; change (length calendar.day_abbr) with 7%nat; lia.
  - rewrite grid_week by (try exact Hm; apply nth_error_Some; congruence).
    rewrite Z2Nat.id by lia; reflexivity.
Qed.

Variable us_holidays : list (date * pystr).
Variables year month : Z.
Variable firstweekday : pystr.
Hypothesis month_valid : 1 <= month <= 12.
Hypothesis firstweekday_valid : In firstweekday calendar.day_abbr.

(** A kept date that does not fall in the last column of the grid is
    highlighted on the cell of its own day: same weekday label, same week. *)
Theorem highlight_on_cell :
  exists fw src hol,
    index calendar.day_abbr firstweekday = Ok fw /\
    make_calendar us_holidays year month firstweekday = Ok (src, hol) /\
    forall k e,
      nth_error (kept year month us_holidays) k = Some e ->
      valid (fst e) = true ->
      weekday fw (fst e) <> 6 ->
      exists i label week,
        nth_error (holidays_days hol) k = Some label /\
        nth_error (holidays_weeks hol) k = Some week /\
        nth_error (month_days src) i = Some (Some (str (datetime.day (fst e)))) /\
        nth_error (days src) i = Some label /\
        nth_error (weeks src) i = Some week.
Proof.
  destruct (valid_firstweekday firstweekday firstweekday_valid)
    as (fw & Hidx & Hfw).
  exists fw; do 2 eexists; split; [exact Hidx |]; split;
    [exact (make_calendar_ok us_holidays year month firstweekday fw Hidx
              month_valid) |].
  cbn [holidays_days holidays_weeks month_days days weeks].
  intros k e Hk Hv Hw.
  destruct (highlight_position us_holidays year month fw k e month_valid Hfw
              Hk Hv) as (Hd & Ew & Hl & Hwk & Hc & Hdl & Hcw).
  do 3 eexists; split; [exact Hl |]; split; [exact Hwk |];
    split; [exact Hc |]; split; [exact Hdl |].
  rewrite Hcw; do 2 f_equal.
  rewrite Ew in Hw.
  Z.div_mod_to_equations; lia.
Qed.

(** A kept date that falls in the last column of the grid is highlighted one
    week below the cell of its day; when that cell is in the last week, the
    week of the highlight is no factor of the plot's vertical range. *)
Theorem highlight_below_cell :
  exists fw p,
    index calendar.day_abbr firstweekday = Ok fw /\
    make_calendar_plot us_holidays year month firstweekday = Ok p /\
    forall k e,
      nth_error (kept year month us_holidays) k = Some e ->
      valid (fst e) = true ->
      weekday fw (fst e) = 6 ->
      exists i label w,
        nth_error (holidays_days (holidays_source p)) k = Some label /\
        nth_error (holidays_weeks (holidays_source p)) k = Some (str (w + 1)) /\
        nth_error (month_days (source p)) i
        = Some (Some (str (datetime.day (fst e)))) /\
        nth_error (days (source p)) i = Some label /\
        nth_error (weeks (source p)) i = Some (str w) /\
        (In (str (w + 1)) (y_range p) <-> w + 1 < len (y_range p)).
Proof.
  destruct (valid_firstweekday firstweekday firstweekday_valid)
    as (fw & Hidx & Hfw).
  exists fw; eexists; split; [exact Hidx |]; split;
    [exact (make_calendar_plot_ok us_holidays year month firstweekday fw Hidx
              month_valid) |].
  cbn [holidays_source source y_range holidays_days holidays_weeks
       month_days days weeks].
  intros k e Hk Hv Hw.
  destruct (highlight_position us_holidays year month fw k e month_valid Hfw
              Hk Hv) as (Hd & Ew & Hl & Hwk & Hc & Hdl & Hcw).
  pose proof (days_before_range fw year month) as B.
  pose proof (week_count_range fw year month month_valid) as R.
  rewrite Ew in Hw.
  do 2 eexists;
    exists ((days_before fw year month + datetime.day (fst e) - 1) / 7).
  split; [exact Hl |]; split; [| split; [exact Hc |]; split; [exact Hdl |];
    split; [exact Hcw |]].
  - rewrite Hwk; do 2 f_equal; Z.div_mod_to_equations; lia.
  - rewrite in_y_range.
    unfold len; rewrite length_rev, length_map.
    unfold range; rewrite length_map, length_seq.
    split; [intros H | intros H; split]; try lia.
    Z.div_mod_to_equations; lia.
Qed.

End Landing.

Lemma highlight_on_cell_witness :
  exists fw src hol,
    index calendar.day_abbr (lit "Mon") = Ok fw /\
    make_calendar [mlk_2014] 2014 1 (lit "Mon") = Ok (src, hol) /\
    forall k e,
      nth_error (kept 2014 1 [mlk_2014]) k = Some e ->
      valid (fst e) = true ->
      weekday fw (fst e) <> 6 ->
      exists i label week,
        nth_error (holidays_days hol) k = Some label /\
        nth_error (holidays_weeks hol) k = Some week /\
        nth_error (month_days src) i = Some (Some (str (datetime.day (fst e)))) /\
        nth_error (days src) i = Some label /\
        nth_error (weeks src) i = Some week.
Proof.
  apply (highlight_on_cell [mlk_2014] 2014 1 (lit "Mon")).
  - lia.
  - vm_compute; tauto.
Defined.

Lemma highlight_below_cell_witness :
  exists fw p,
    index calendar.day_abbr (lit "Tue") = Ok fw /\
    make_calendar_plot [mlk_2014] 2014 1 (lit "Tue") = Ok p /\
    forall k e,
      nth_error (kept 2014 1 [mlk_2014]) k = Some e ->
      valid (fst e) = true ->
      weekday fw (fst e) = 6 ->
      exists i label w,
        nth_error (holidays_days (holidays_source p)) k = Some label /\
        nth_error (holidays_weeks (holidays_source p)) k = Some (str (w + 1)) /\
        nth_error (month_days (source p)) i
        = Some (Some (str (datetime.day (fst e)))) /\
        nth_error (days (source p)) i = Some label /\
        nth_error (weeks (source p)) i = Some (str w) /\
        (In (str (w + 1)) (y_range p) <-> w + 1 < len (y_range p)).
Proof.
  apply (highlight_below_cell [mlk_2014] 2014 1 (lit "Tue")).
  - lia.
  - vm_compute; tauto.
Defined.

(** ** The grid against the ranges of the plot *)

Section Ranges.

Lemma rotate_permutation {A : Type} (k : Z) (l : list A) :
  Permutation l (rotate k l).
Proof.
  unfold rotate.
  rewrite <- (firstn_skipn (Z.to_nat k) l) at 1.
  apply Permutation_app_comm.
Qed.

Lemma NoDup_day_abbr : NoDup calendar.day_abbr.
Proof.
  apply (Finite.Injective_map_NoDup (f := lit)).
  - intros a b; apply lit_inj.
  - repeat constructor; cbn [In]; intuition discriminate.
Qed.

Lemma NoDup_day_names (fw : Z) : NoDup (rotate fw calendar.day_abbr).
Proof.
  eapply Permutation_NoDup; [apply rotate_permutation | apply NoDup_day_abbr].
Qed.

Lemma in_times {A : Type} (l : list A) (n : Z) (x : A) :
  In x (times l n) -> In x l.
Proof.
  unfold times; intros H; apply in_concat in H.
  destruct H as (l' & Hl' & Hx); apply repeat_spec in Hl'; subst l'; exact Hx.
Qed.

Lemma in_week_rows (wc : Z) (y : pystr) :
  In y (sum_lists (map (fun week => times [str week] 7) (range 0 wc)))
  -> exists w, 0 <= w < wc /\ y = str w.
Proof.
  unfold sum_lists; intros H; apply in_concat in H.
  destruct H as (l & Hl & Hy); apply in_map_iff in Hl.
  destruct Hl as (w & <- & Hw); apply in_range in Hw.
  apply in_times in Hy; destruct Hy as [<- | []].
  exists w; split; [exact Hw | reflexivity].
Qed.

Lemma nth_error_combine_pair {A B : Type} (l : list A) (l' : list B) (i : nat) :
  nth_error (combine l l') i
  = match nth_error l i, nth_error l' i with
    | Some a, Some b => Some (a, b)
    | _, _ => None
    end.
Proof.
  revert l' i; induction l as [|a l IH]; intros [|b l'] [|i]; cbn;
    try reflexivity.
  - destruct (nth_error l i); reflexivity.
  - apply IH.
Qed.

(** The coordinates of the cell at position [i] of the grid. *)
Lemma cell_coordinates (fw y m : Z) (i : nat) :
  1 <= m <= 12 ->
  (i < Z.to_nat (week_count fw y m) * 7)%nat ->
  nth_error (combine (times (rotate fw calendar.day_abbr) (week_count fw y m))
                     (sum_lists (map (fun week => times [str week] 7)
                                     (range 0 (week_count fw y m))))) i
  = option_map (fun x => (x, str (Z.of_nat i / 7)))
               (nth_error (rotate fw calendar.day_abbr) (i mod 7)).
Proof.
  intros Hm Hi.
  pose proof (len_month_cells fw y m Hm) as L; unfold len in L.
  pose proof (week_count_spec fw y m Hm) as W.
  rewrite nth_error_combine_pair.
  rewrite nth_error_times
    by (rewrite rotate_length; change (length calendar.day_abbr) with 7%nat;
        exact Hi).
  rewrite rotate_length; change (length calendar.day_abbr) with 7%nat.
  rewrite grid_week by (try exact Hm; lia).
  destruct (nth_error (rotate fw calendar.day_abbr) (i mod 7)); reflexivity.
Qed.

Variable us_holidays : list (date * pystr).
Variables year month : Z.
Variable firstweekday : pystr.
Hypothesis month_valid : 1 <= month <= 12.
Hypothesis firstweekday_valid : In firstweekday calendar.day_abbr.

(** The horizontal range holds the seven weekday names once each, starting
    with the requested first weekday; every row of the grid spells it out, and
    every holiday cell is labelled with one of its factors. *)
Theorem weekday_columns :
  exists p,
    make_calendar_plot us_holidays year month firstweekday = Ok p /\
    Permutation calendar.day_abbr (x_range p) /\
    nth_error (x_range p) 0 = Some firstweekday /\
    (forall i, (i < length (days (source p)))%nat ->
               nth_error (days (source p)) i
               = nth_error (x_range p) (i mod 7)) /\
    (forall label, In label (holidays_days (holidays_source p)) ->
                   In label (x_range p)).
Proof.
  destruct (valid_firstweekday firstweekday firstweekday_valid)
    as (fw & Hidx & Hfw).
  destruct (index_day_abbr firstweekday fw Hidx) as [_ Hnth].
  eexists; split;
    [exact (make_calendar_plot_ok us_holidays year month firstweekday fw Hidx
              month_valid) |].
  cbn [x_range source holidays_source days holidays_days].
  split; [apply rotate_permutation |]; split; [| split].
  - rewrite <- Hnth.
    change 0%nat with (Z.to_nat 0).
    rewrite nth_error_rotate by (try reflexivity; lia).
    do 2 f_equal; Z.div_mod_to_equations; lia.
  - intros i Hi.
    rewrite length_times, rotate_length in Hi.
    rewrite nth_error_times by (rewrite rotate_length; exact Hi).
    rewrite rotate_length; reflexivity.
  - intros label H; apply in_map_iff in H; destruct H as (e & <- & _).
    apply nth_In.
    pose proof (closure_weekday_range fw (fst e)).
    rewrite rotate_length; change (length calendar.day_abbr) with 7%nat; lia.
Qed.

(** The day cells tile the plot: their (weekday, week) coordinates are
    pairwise distinct, and they are exactly the pairs of a factor of the
    horizontal range with a factor of the vertical range. *)
Theorem cells_tile_the_ranges :
  exists p,
    make_calendar_plot us_holidays year month firstweekday = Ok p /\
    NoDup (combine (days (source p)) (weeks (source p))) /\
    NoDup (y_range p) /\
    forall x y,
      In (x, y) (combine (days (source p)) (weeks (source p)))
      <-> In x (x_range p) /\ In y (y_range p).
Proof.
  destruct (valid_firstweekday firstweekday firstweekday_valid)
    as (fw & Hidx & Hfw).
  eexists; split;
    [exact (make_calendar_plot_ok us_holidays year month firstweekday fw Hidx
              month_valid) |].
  cbn [x_range y_range source days weeks].
  pose proof (week_count_range fw year month month_valid) as R.
  pose proof (NoDup_day_names fw) as Nn.
  assert (Hlen : length (combine (times (rotate fw calendar.day_abbr)
                                        (week_count fw year month))
                                 (sum_lists (map (fun week => times [str week] 7)
                                                 (range 0 (week_count fw year month)))))
                 = (Z.to_nat (week_count fw year month) * 7)%nat).
  { rewrite length_combine, length_times, rotate_length, length_rows.
    unfold range; rewrite length_map, length_seq.
    change (length calendar.day_abbr) with 7%nat; lia. }
  split; [| split].
  - apply NoDup_nth_error; intros i j Hi E.
    rewrite Hlen in Hi.
    assert (Hj : (j < Z.to_nat (week_count fw year month) * 7)%nat).
    { rewrite <- Hlen; apply nth_error_Some; rewrite <- E.
      apply nth_error_Some; rewrite Hlen; exact Hi. }
    rewrite !cell_coordinates in E by assumption.
    pose proof (Nat.mod_upper_bound i 7 ltac:(lia)) as Mi.
    pose proof (Nat.mod_upper_bound j 7 ltac:(lia)) as Mj.
    destruct (nth_error (rotate fw calendar.day_abbr) (i mod 7)) as [a |] eqn:Ea;
      [| apply nth_error_None in Ea; rewrite rotate_length in Ea;
         change (length calendar.day_abbr) with 7%nat in Ea; lia].
    destruct (nth_error (rotate fw calendar.day_abbr) (j mod 7)) as [b |] eqn:Eb;
      [| discriminate E].
    cbn [option_map] in E; injection E as Eab Es; subst b.
    apply str_inj in Es.
    assert (Em : (i mod 7 = j mod 7)%nat).
    { apply (proj1 (NoDup_nth_error _) Nn);
        [rewrite rotate_length; change (length calendar.day_abbr) with 7%nat;
         exact Mi | congruence]. }
    pose proof (Nat.div_mod_eq i 7) as Di.
    pose proof (Nat.div_mod_eq j 7) as Dj.
    change 7 with (Z.of_nat 7) in Es; rewrite <- !Nat2Z.inj_div in Es.
    lia.
  - apply NoDup_rev, Finite.Injective_map_NoDup; [| apply NoDup_range].
    intros a b; apply str_inj.
  - intros x y; split.
    + intros H; split.
      * apply in_combine_l in H; apply in_times in H; exact H.
      * apply in_combine_r in H; apply in_week_rows in H.
        destruct H as (w & Hw & ->); apply in_y_range; exact Hw.
    + intros [Hx Hy].
      apply In_nth_error in Hx; destruct Hx as [c Hc].
      assert (Hc7 : (c < 7)%nat).
      { assert (Hlt : (c < length (rotate fw calendar.day_abbr))%nat)
          by (apply nth_error_Some; congruence).
        rewrite rotate_length in Hlt; exact Hlt. }
      apply in_rev, in_map_iff in Hy; destruct Hy as (w & <- & Hw).
      apply in_range in Hw.
      apply (nth_error_In _ (7 * Z.to_nat w + c)).
      rewrite cell_coordinates by (try exact month_valid; lia).
      replace ((7 * Z.to_nat w + c) mod 7)%nat with c
        by (rewrite Nat.add_comm, Nat.mul_comm, Nat.Div0.mod_add,
              Nat.mod_small; lia).
      rewrite Hc; cbn [option_map]; do 3 f_equal.
      rewrite Nat2Z.inj_add, Nat2Z.inj_mul, Z2Nat.id by lia.
      Z.div_mod_to_equations; lia.
Qed.

(** The grid has four to six weeks and no blank one: day 1 is in the first
    week and the last day of the month in the last week. *)
Theorem no_blank_week :
  exists p i j,
    make_calendar_plot us_holidays year month firstweekday = Ok p /\
    4 <= len (y_range p) <= 6 /\
    len (month_days (source p)) = 7 * len (y_range p) /\
    (i < 7)%nat /\
    nth_error (month_days (source p)) i = Some (Some (str 1)) /\
    (length (month_days (source p)) - 7 <= j)%nat /\
    nth_error (month_days (source p)) j
    = Some (Some (str (days_in_month year month))).
Proof.
  destruct (valid_firstweekday firstweekday firstweekday_valid)
    as (fw & Hidx & Hfw).
  pose proof (week_count_range fw year month month_valid) as R.
  pose proof (week_count_spec fw year month month_valid) as W.
  pose proof (len_month_cells fw year month month_valid) as L.
  pose proof (days_before_range fw year month) as B.
  pose proof (days_after_range fw year month) as A.
  pose proof (days_in_month_range year month month_valid) as D.
  eexists.
  exists (Z.to_nat (days_before fw year month + 1 - 1)).
  exists (Z.to_nat (days_before fw year month + days_in_month year month - 1)).
  split;
    [exact (make_calendar_plot_ok us_holidays year month firstweekday fw Hidx
              month_valid) |].
  cbn [y_range source month_days].
  assert (Ly : len (rev (map str (range 0 (week_count fw year month))))
               = week_count fw year month).
  { unfold len; rewrite length_rev, length_map.
    unfold range; rewrite length_map, length_seq; lia. }
  rewrite Ly; split; [exact R |]; split; [lia |]; split; [lia |].
  split; [apply day_cell_exists; [exact month_valid | lia] |].
  split; [unfold len in L; lia |].
  apply day_cell_exists; [exact month_valid | lia].
Qed.

End Ranges.

Lemma weekday_columns_witness :
  exists p,
    make_calendar_plot [mlk_2014] 2014 1 (lit "Wed") = Ok p /\
    Permutation calendar.day_abbr (x_range p) /\
    nth_error (x_range p) 0 = Some (lit "Wed") /\
    (forall i, (i < length (days (source p)))%nat ->
               nth_error (days (source p)) i
               = nth_error (x_range p) (i mod 7)) /\
    (forall label, In label (holidays_days (holidays_source p)) ->
                   In label (x_range p)).
Proof.
  apply (weekday_columns [mlk_2014] 2014 1 (lit "Wed")).
  - lia.
  - vm_compute; tauto.
Defined.

Lemma cells_tile_the_ranges_witness :
  exists p,
    make_calendar_plot [mlk_2014] 2014 1 (lit "Wed") = Ok p /\
    NoDup (combine (days (source p)) (weeks (source p))) /\
    NoDup (y_range p) /\
    forall x y,
      In (x, y) (combine (days (source p)) (weeks (source p)))
      <-> In x (x_range p) /\ In y (y_range p).
Proof.
  apply (cells_tile_the_ranges [mlk_2014] 2014 1 (lit "Wed")).
  - lia.
  - vm_compute; tauto.
Defined.

Lemma no_blank_week_witness :
  exists p i j,
    make_calendar_plot [mlk_2014] 2014 2 (lit "Sat") = Ok p /\
    4 <= len (y_range p) <= 6 /\
    len (month_days (source p)) = 7 * len (y_range p) /\
    (i < 7)%nat /\
    nth_error (month_days (source p)) i = Some (Some (str 1)) /\
    (length (month_days (source p)) - 7 <= j)%nat /\
    nth_error (month_days (source p)) j
    = Some (Some (str (days_in_month 2014 2))).
Proof.
  apply (no_blank_week [mlk_2014] 2014 2 (lit "Sat")).
  - lia.
  - vm_compute; tauto.
Defined.

(** ** Labels of marked summaries *)

Section MarkedLabels.

Lemma remove_scan_prefix (o : N) (old' t : pystr) :
  remove_scan (o :: old') O ((o :: old') ++ t) = remove_scan (o :: old') O t.
Proof.
  cbn [app remove_scan].
  replace (startswith (o :: old') (o :: old' ++ t)) with true
    by (symmetry; apply startswith_spec; exists t; reflexivity).
  rewrite remove_scan_skip.
  replace (length (o :: old') - 1)%nat with (length old') by (cbn [length]; lia).
  rewrite skipn_prefix; reflexivity.
Qed.

Lemma remove_scan_other (o c : N) (old' s : pystr) :
  c <> o ->
  remove_scan (o :: old') O (c :: s) = c :: remove_scan (o :: old') O s.
Proof.
  intros H; cbn [remove_scan startswith].
  destruct (N.eqb_spec o c); [congruence | reflexivity].
Qed.

(** Without an occurrence there is nothing to delete. *)
Lemma remove_absent (old s : pystr) :
  contains old s = false -> remove old s = s.
Proof.
  destruct old as [|o old']; [reflexivity |]; cbn [remove].
  induction s as [|c s IH]; [reflexivity |].
  cbn [contains remove_scan]; intros H; apply orb_false_iff in H.
  destruct H as [H1 H2]; rewrite H1, (IH H2); reflexivity.
Qed.

(** The marker after a text without an opening parenthesis. *)
Lemma remove_marker_after (a b : pystr) :
  ~ In (N_of_ascii "(") a ->
  remove US_OPM (a ++ US_OPM ++ b) = a ++ remove US_OPM b.
Proof.
  intros Ha.
  change (remove_scan US_OPM O (a ++ US_OPM ++ b)
          = a ++ remove_scan US_OPM O b).
  induction a as [|c a IH].
  - exact (remove_scan_prefix (N_of_ascii "(") (lit "US-OPM)") b).
  - cbn [app].
    change US_OPM with (N_of_ascii "(" :: lit "US-OPM)") at 1 3.
    rewrite remove_scan_other by (intros ->; apply Ha; left; reflexivity).
    f_equal; apply IH; intros H; apply Ha; right; exact H.
Qed.

Variable us_holidays : list (date * pystr).
Variables year month : Z.
Variable firstweekday : pystr.
Hypothesis month_valid : 1 <= month <= 12.
Hypothesis firstweekday_valid : In firstweekday calendar.day_abbr.

(** A kept summary that reads [a], the marker, [b], with no opening
    parenthesis in [a] and no further marker in [b], is labelled with [a]
    followed by [b], stripped of the white space at both ends. *)
Theorem label_of_marked_summary :
  exists p,
    make_calendar_plot us_holidays year month firstweekday = Ok p /\
    forall k e a b,
      nth_error (kept year month us_holidays) k = Some e ->
      snd e = a ++ US_OPM ++ b ->
      ~ In (N_of_ascii "(") a ->
      contains US_OPM b = false ->
      nth_error (month_holidays (holidays_source p)) k = Some (strip (a ++ b)).
Proof.
  destruct (valid_firstweekday firstweekday firstweekday_valid)
    as (fw & Hidx & Hfw).
  eexists; split;
    [exact (make_calendar_plot_ok us_holidays year month firstweekday fw Hidx
              month_valid) |].
  cbn [holidays_source month_holidays].
  intros k e a b Hk Hs Ha Hb.
  rewrite nth_error_map, Hk; cbn [option_map].
  rewrite Hs, (remove_marker_after a b Ha), (remove_absent _ _ Hb).
  reflexivity.
Qed.

End MarkedLabels.

Lemma label_of_marked_summary_witness :
  exists p,
    make_calendar_plot [mlk_2014] 2014 1 (lit "Mon") = Ok p /\
    forall k e a b,
      nth_error (kept 2014 1 [mlk_2014]) k = Some e ->
      snd e = a ++ US_OPM ++ b ->
      ~ In (N_of_ascii "(") a ->
      contains US_OPM b = false ->
      nth_error (month_holidays (holidays_source p)) k = Some (strip (a ++ b)).
Proof.
  apply (label_of_marked_summary [mlk_2014] 2014 1 (lit "Mon")).
  - lia.
  - vm_compute; tauto.
Defined.

(** ** The twelve months of the script *)

Section Script.

(** Whatever the holiday data, the module level builds all twelve plots: four
    rows of three, January to December in reading order, each with Monday as
    its first column. *)
Theorem months_built (us_holidays : list (date * pystr)) :
  exists rows,
    months us_holidays = Ok rows /\
    map (map title_text) rows
    = map (map lit)
          [["January"; "February"; "March"];
           ["April"; "May"; "June"];
           ["July"; "August"; "September"];
           ["October"; "November"; "December"]]%string /\
    Forall (Forall (fun p => x_range p = calendar.day_abbr)) rows /\
    Forall (Forall (fun p => len (month_days (source p)) mod 7 = 0)) rows.
Proof.
  unfold months.
  change (range 0 4) with [0; 1; 2; 3].
  change (range 0 3) with [0; 1; 2].
  cbn [mapM].
  rewrite !(fun m H => make_calendar_plot_ok us_holidays 2014 m (lit "Mon") 0
                         eq_refl H) by lia.
  cbn [bind].
  eexists; split; [reflexivity |].
  split; [reflexivity |]; split.
  - repeat constructor.
  - repeat constructor.
Qed.

End Script.
